(** * audiotools.data.datasets: sampling, alignment and resume logic

    A shallow embedding of [audiotools/data/datasets.py].

    Conventions of the embedding:
    - Python integers are [Z]; [%] and [//] are [Z.modulo] and [Z.div]
      (both floor towards minus infinity, as Python does), and raise
      [ZeroDivisionError] on a zero divisor.
    - Python floats are modelled as exact rationals [Q]; the rounding error
      of binary floating point is not modelled.
    - A call that can raise returns a [Res]; mutable objects (the random
      state, the diagnostic file, standard output) are passed explicitly.
    - The audio primitives of [audiotools.core] (decode, downmix, resample)
      and of [util] are operations of the class [Backend]. *)

From Stdlib Require Import ZArith List Bool String Ascii Lia QArith Qround Permutation.
Import ListNotations.
Open Scope string_scope.
Open Scope list_scope.
Open Scope Z_scope.

Set Implicit Arguments.

(** ** Python primitives *)

Module Py.

(** The exception classes the module distinguishes.  [OtherError] stands
    for any class that is neither [RuntimeError], [ValueError] nor one of
    their subclasses. *)
Inductive ExnClass :=
| LibsndfileError   (* soundfile.LibsndfileError, a RuntimeError subclass *)
| RuntimeError
| ValueError
| IndexError
| KeyError
| ZeroDivisionError
| OtherError (name : string).

Record Exn := mkExn { exn_class : ExnClass; exn_msg : string }.

(** [str(e)] *)
Definition str (e : Exn) : string := exn_msg e.

Inductive Res (A : Type) :=
| Ok (a : A)
| Raise (e : Exn).
Arguments Ok {A} a.
Arguments Raise {A} e.

Definition bind {A B} (m : Res A) (k : A -> Res B) : Res B :=
  match m with
  | Ok a => k a
  | Raise e => Raise e
  end.

Definition index_error : Exn := mkExn IndexError "list index out of range".
Definition zero_division : Exn :=
  mkExn ZeroDivisionError "integer division or modulo by zero".

(** [l[i]] on a list: negative indices count from the end. *)
Definition getitem {A} (l : list A) (i : Z) : Res A :=
  let n := Z.of_nat (List.length l) in
  let j := if i <? 0 then i + n else i in
  if (0 <=? j) && (j <? n) then
    match nth_error l (Z.to_nat j) with
    | Some a => Ok a
    | None => Raise index_error
    end
  else Raise index_error.

(** [a % b] *)
Definition mod_ (a b : Z) : Res Z :=
  if b =? 0 then Raise zero_division else Ok (a mod b).

(** [a // b] *)
Definition floordiv (a b : Z) : Res Z :=
  if b =? 0 then Raise zero_division else Ok (a / b).

(** [sum(l)] *)
Definition sum (l : list Z) : Z := fold_left Z.add l 0.

(** [len(l)] *)
Definition len {A} (l : list A) : Z := Z.of_nat (List.length l).

(** [needle in hay] on strings. *)
Fixpoint str_in (needle hay : string) : bool :=
  String.prefix needle hay
  || match hay with
     | EmptyString => false
     | String _ rest => str_in needle rest
     end.

End Py.

Notation "x <- m ;; k" := (Py.bind m (fun x => k))
(at level 61, m at next level, right associativity).

(** ** ConcatDataset *)

Module ConcatDataset.
Section Members.

(** The member datasets: anything with [__len__] and [__getitem__]. *)
Variable Dataset : Type.
Variable Item : Type.
Variable member_len : Dataset -> Z.
Variable member_getitem : Dataset -> Z -> Py.Res Item.

(** [__len__]: [sum([len(d) for d in self.datasets])] *)
Definition len (datasets : list Dataset) : Z :=
  Py.sum (map member_len datasets).

(** [__getitem__] *)
Definition getitem (datasets : list Dataset) (idx : Z) : Py.Res Item :=
  k <- Py.mod_ idx (Py.len datasets) ;;
  dataset <- Py.getitem datasets k ;;
  q <- Py.floordiv idx (Py.len datasets) ;;
  member_getitem dataset q.

End Members.
End ConcatDataset.

(** ** Resumable samplers *)

Module Sampler.
Section Iter.

Variable Index : Type.

(** The only state of a resumable sampler. *)
Record t := mk { start_idx : Z }.

(** [for i, idx in enumerate(super().__iter__()): if i >= self.start_idx: yield idx] *)
Fixpoint enumerate_from (start i : Z) (wrapped : list Index) : list Index :=
  match wrapped with
  | [] => []
  | idx :: rest =>
      if start <=? i then idx :: enumerate_from start (i + 1) rest
      else enumerate_from start (i + 1) rest
  end.

(** One full pass of [__iter__]: the indices yielded, and the sampler
    after [self.start_idx = 0]. *)
Definition iter (s : t) (wrapped : list Index) : list Index * t :=
  (enumerate_from (start_idx s) 0 wrapped, mk 0).

(** Successive full passes; [wrapped] gives the sequence
    [super().__iter__()] produces on each pass. *)
Fixpoint passes (s : t) (wrapped : list (list Index)) : list (list Index) :=
  match wrapped with
  | [] => []
  | w :: ws => let '(out, s') := iter s w in out :: passes s' ws
  end.

End Iter.

(** [ResumableSequentialSampler.__init__] *)
Definition sequential_init (start_idx : option Z) : t :=
  mk (match start_idx with Some k => k | None => 0 end).

(** [ResumableDistributedSampler.__init__] *)
Definition distributed_init (num_replicas : Z) (start_idx : option Z) : Py.Res t :=
  match start_idx with
  | Some k => q <- Py.floordiv k num_replicas ;; Py.Ok (mk q)
  | None => Py.Ok (mk 0)
  end.

(** The last [n] elements of [l]. *)
Definition lastn {A} (n : nat) (l : list A) : list A :=
  skipn (List.length l - n) l.

(** [SequentialSampler.__iter__]: [iter(range(len(data_source)))] *)
Definition range (n : Z) : list Z :=
  map Z.of_nat (seq 0 (Z.to_nat n)).

End Sampler.

(** ** Catalogs and signals *)

(** A dynamically typed metadata value. *)
Inductive Value :=
| VNone
| VStr (s : string)
| VNum (q : Q).

(** A dict with insertion order, as Python's. *)
Definition Dict (V : Type) := list (string * V).

(** [d[k]] *)
Fixpoint dict_get {V} (d : Dict V) (k : string) : Py.Res V :=
  match d with
  | [] => Py.Raise (Py.mkExn Py.KeyError k)
  | (k', v) :: rest => if String.eqb k' k then Py.Ok v else dict_get rest k
  end.

(** [d[k] = v] *)
Fixpoint dict_set {V} (d : Dict V) (k : string) (v : V) : Dict V :=
  match d with
  | [] => [(k, v)]
  | (k', v') :: rest =>
      if String.eqb k' k then (k, v) :: rest else (k', v') :: dict_set rest k v
  end.

(** An item record of a catalog: [{"path": ..., **metadata}]. *)
Record Item := mkItem { path : string; fields : Dict Value }.

(** [audio_info.items()] *)
Definition items (audio_info : Item) : list (string * Value) :=
  ("path", VStr (path audio_info)) :: fields audio_info.

(** [{"path": "none"}] *)
Definition sentinel : Item := mkItem "none" [].

(** What the module observes of an [AudioSignal]: the samples (one frame of
    [num_channels] values per time step), the rate and the metadata dict. *)
Record AudioSignal := mkSignal {
  audio_data : list (list Q);
  num_channels : Z;
  sample_rate : Z;
  metadata : Dict Value
}.

(** [signal.signal_length] *)
Definition signal_length (s : AudioSignal) : Z := Py.len (audio_data s).

(** [signal.duration]: [signal_length / sample_rate] *)
Definition signal_duration (s : AudioSignal) : Py.Res Q :=
  if sample_rate s =? 0 then Py.Raise Py.zero_division
  else Py.Ok (inject_Z (signal_length s) / inject_Z (sample_rate s))%Q.

(** [int(x)] on a float: truncation towards zero. *)
Definition int_ (x : Q) : Z := Z.quot (Qnum x) (Zpos (Qden x)).

(** [round(x)] on a float: to the nearest integer, ties to the even one. *)
Definition round_ (x : Q) : Z :=
  let f := Qfloor x in
  match (x - inject_Z f ?= 1 # 2)%Q with
  | Lt => f
  | Gt => f + 1
  | Eq => if Z.even f then f else f + 1
  end.

(** [a < b] on floats *)
Definition Qltb (a b : Q) : bool :=
  match (a ?= b)%Q with Lt => true | _ => false end.

(** A frame of silence. *)
Definition silence (num_channels : Z) : list Q :=
  repeat 0%Q (Z.to_nat num_channels).

(** The mutable world outside the random state: standard output and the
    diagnostic file [/tmp/corrupt.txt]. *)
Record World := mkWorld { stdout : list string; corrupt_txt : list string }.

(** The collaborators of this module that live in [audiotools.core],
    [util], numpy and the transforms. *)
Class Backend := {
  RandomState : Type;
  Transform : Type;
  TransformArgs : Type;
  Blob : Type;
  Batch : Type;
  (** [util.random_state(seed)] *)
  random_state : Z -> RandomState;
  (** [state.shuffle(l)], in place *)
  shuffle : forall A : Type, RandomState -> list A -> list A * RandomState;
  (** [util.choose_from_list_of_lists(state, lists, p=weights)] *)
  choose_from_list_of_lists :
    RandomState -> list (list Item) -> option (list Q) ->
    Py.Res (Item * Z * Z) * RandomState;
  (** [AudioSignal.zeros(duration, sample_rate, num_channels)] *)
  zeros : Q -> Z -> Z -> AudioSignal;
  (** [AudioSignal.salient_excerpt(path, duration=, state=, loudness_cutoff=)] *)
  salient_excerpt :
    string -> Q -> RandomState -> Q -> Py.Res AudioSignal * RandomState;
  (** [AudioSignal(path, offset=, duration=)] *)
  load : string -> Value -> Q -> Py.Res AudioSignal;
  (** [signal.to_mono()] *)
  to_mono : AudioSignal -> AudioSignal;
  (** [signal.resample(sample_rate)] *)
  resample : AudioSignal -> Z -> AudioSignal;
  (** [signal.zero_pad_to(length)] *)
  zero_pad_to : AudioSignal -> Z -> AudioSignal;
  (** [transform.instantiate(state, signal=signal)] *)
  instantiate : Transform -> RandomState -> AudioSignal -> TransformArgs * RandomState;
  (** whether [file.write] can encode the string *)
  encodable : string -> bool;
  (** [util.AUDIO_EXTENSIONS] *)
  AUDIO_EXTENSIONS : list string;
  (** [AudioSignal.salient_excerpts(io.BytesIO(value), duration=, state=,
      loudness_cutoff=, num_excerpts=, max_excerpts=)] *)
  salient_excerpts :
    Blob -> Q -> RandomState -> Q -> Z -> option Z -> Py.Res Batch * RandomState;
  (** the batched signal operations of the streaming path *)
  batch_to_mono : Batch -> Batch;
  batch_to_rand_mono : Batch -> Batch;
  batch_resample : Batch -> Z -> Batch;
  batch_duration : Batch -> Py.Res Q;
  batch_zero_pad_to : Batch -> Z -> Batch;
  (** [for signal in signals] *)
  batch_iter : Batch -> list AudioSignal
}.

(** ** Effects: the random state and the world are threaded through a call
    that may raise. *)

Definition Eff `{Backend} (A : Type) : Type :=
  RandomState -> World -> Py.Res A * RandomState * World.

Section Effects.
Context `{B : Backend}.

Definition ret {A} (a : A) : Eff A := fun st w => (Py.Ok a, st, w).

Definition raise {A} (e : Py.Exn) : Eff A := fun st w => (Py.Raise e, st, w).

Definition ebind {A C} (m : Eff A) (k : A -> Eff C) : Eff C :=
  fun st w =>
    match m st w with
    | (Py.Ok a, st', w') => k a st' w'
    | (Py.Raise e, st', w') => (Py.Raise e, st', w')
    end.

(** A pure call that may raise. *)
Definition lift {A} (r : Py.Res A) : Eff A := fun st w => (r, st, w).

(** A collaborator that draws from the random state. *)
Definition draw {A} (f : RandomState -> A * RandomState) : Eff A :=
  fun st w => let '(a, st') := f st in (Py.Ok a, st', w).

(** A collaborator that draws from the random state and may raise. *)
Definition draw_res {A} (f : RandomState -> Py.Res A * RandomState) : Eff A :=
  fun st w => let '(r, st') := f st in (r, st', w).

(** [print(line)] *)
Definition print (line : string) : Eff unit :=
  fun st w => (Py.Ok tt, st, mkWorld (stdout w ++ [line]) (corrupt_txt w)).

(** [with open("/tmp/corrupt.txt", "a+") as file:
       try: file.write(text) except UnicodeEncodeError: pass] *)
Definition append_corrupt (text : string) : Eff unit :=
  fun st w =>
    if encodable text
    then (Py.Ok tt, st, mkWorld (stdout w) (corrupt_txt w ++ [text]))
    else (Py.Ok tt, st, w).

(** [try: m except ...: handler(e)] *)
Definition try_except {A} (m : Eff A) (handler : Py.Exn -> Eff A) : Eff A :=
  fun st w =>
    match m st w with
    | (Py.Ok a, st', w') => (Py.Ok a, st', w')
    | (Py.Raise e, st', w') => handler e st' w'
    end.


End Effects.

Notation "x <~ m ;; k" := (ebind m (fun x => k))
  (at level 61, m at next level, right associativity).
Notation "' p <~ m ;; k" := (ebind m (fun x => let p := x in k))
  (at level 61, p pattern, m at next level, right associativity).

(** ** AudioLoader *)

Module AudioLoader.
Section Loader.
Context `{B : Backend}.

Record t := mk {
  audio_lists : list (list Item);
  audio_indices : list (Z * Z);
  sources : list string;
  weights : option (list Q);
  transform : option Transform
}.

(** The arguments of [__call__] after [state]. *)
Record Kwargs := mkKwargs {
  kw_sample_rate : Z;
  kw_duration : Q;
  kw_loudness_cutoff : Q;
  kw_num_channels : Z;
  kw_offset : Value;
  kw_source_idx : option Z;
  kw_item_idx : option Z;
  kw_global_idx : option Z
}.

(** The dict [__call__] returns. *)
Record Sample := mkSample {
  signal : AudioSignal;
  source_idx : Z;
  item_idx : Z;
  source : string;
  sample_path : string;
  transform_args : option TransformArgs
}.

(** [[(src_idx, item_idx) for src_idx, src in enumerate(self.audio_lists)
      for item_idx in range(len(src))]] *)
Fixpoint flatten_from (src_idx : Z) (lists : list (list Item)) : list (Z * Z) :=
  match lists with
  | [] => []
  | src :: rest =>
      map (fun item_idx => (src_idx, item_idx)) (Sampler.range (Py.len src))
      ++ flatten_from (src_idx + 1) rest
  end.

(** [__init__]; [lists] is what [util.read_sources(sources, ...)] found,
    one catalog per source. *)
Definition init (sources : list string) (lists : list (list Item))
    (weights : option (list Q)) (transform : option Transform)
    (shuffle_ : bool) (shuffle_state : Z) : t :=
  let audio_indices := flatten_from 0 lists in
  let audio_indices :=
    if shuffle_
    then fst (shuffle (random_state shuffle_state) audio_indices)
    else audio_indices in
  mk lists audio_indices sources weights transform.

(** Lines 90-103 of [__call__]: which item is sampled. *)
Definition resolve (self : t) (kw : Kwargs) : Eff (Item * Z * Z) :=
  match kw_source_idx kw, kw_item_idx kw with
  | Some source_idx, Some item_idx =>
      match (l <- Py.getitem (audio_lists self) source_idx ;;
             Py.getitem l item_idx) with
      | Py.Ok audio_info => ret (audio_info, source_idx, item_idx)
      | Py.Raise _ => ret (sentinel, source_idx, item_idx)
      end
  | _, _ =>
      match kw_global_idx kw with
      | Some global_idx =>
          lift (k <- Py.mod_ global_idx (Py.len (audio_indices self)) ;;
                si <- Py.getitem (audio_indices self) k ;;
                l <- Py.getitem (audio_lists self) (fst si) ;;
                audio_info <- Py.getitem l (snd si) ;;
                Py.Ok (audio_info, fst si, snd si))
      | None =>
          draw_res (fun state =>
            choose_from_list_of_lists state (audio_lists self) (weights self))
      end
  end.

Definition tensor_mismatch : string :=
  "The size of tensor a (5) must match the size of tensor b (6) at non-singleton dimension 1".

(** The test of the [except (RuntimeError, soundfile.LibsndfileError)]
    clause together with the [if] under it. *)
Definition recovers (e : Py.Exn) : bool :=
  match Py.exn_class e with
  | Py.LibsndfileError => true
  | Py.RuntimeError =>
      Py.str_in tensor_mismatch (Py.str e) || Py.str_in "is empty!" (Py.str e)
  | _ => false
  end.

(** Lines 108-137: the decode of the excerpt. *)
Definition decode (kw : Kwargs) (path : string) (signal : AudioSignal)
  : Eff AudioSignal :=
  if String.eqb path "none" then ret signal
  else
    match kw_offset kw with
    | VNone =>
        try_except
          (draw_res (fun state =>
             salient_excerpt path (kw_duration kw) state (kw_loudness_cutoff kw)))
          (fun e =>
             if recovers e then
               _ <~ print ("Error loading audio at " ++ path ++ ". Skipping...")%string ;;
               _ <~ append_corrupt (path ++ String "010"%char EmptyString)%string ;;
               ret signal
             else raise e)
    | offset => lift (load path offset (kw_duration kw))
    end.

(** Lines 139-141: downmix and resample. *)
Definition resampled (kw : Kwargs) (signal : AudioSignal) : AudioSignal :=
  let signal := if kw_num_channels kw =? 1 then to_mono signal else signal in
  resample signal (kw_sample_rate kw).

(** Lines 146-147: [for k, v in audio_info.items(): signal.metadata[k] = v] *)
Definition copy_metadata (audio_info : Item) (signal : AudioSignal)
  : AudioSignal :=
  fold_left
    (fun s kv => mkSignal (audio_data s) (num_channels s) (sample_rate s)
                   (dict_set (metadata s) (fst kv) (snd kv)))
    (items audio_info) signal.

(** Lines 139-147: downmix, resample, pad, copy the metadata. *)
Definition postprocess (kw : Kwargs) (audio_info : Item) (signal : AudioSignal)
  : Py.Res AudioSignal :=
  let signal := resampled kw signal in
  d <- signal_duration signal ;;
  let signal :=
    if Qltb d (kw_duration kw)
    then zero_pad_to signal
           (int_ (kw_duration kw * inject_Z (kw_sample_rate kw)))
    else signal in
  Py.Ok (copy_metadata audio_info signal).

(** [__call__] *)
Definition call (self : t) (kw : Kwargs) : Eff Sample :=
  r <~ resolve self kw ;;
  let '(audio_info, source_idx, item_idx) := r in
  let path := path audio_info in
  let signal :=
    zeros (kw_duration kw) (kw_sample_rate kw) (kw_num_channels kw) in
  signal <~ decode kw path signal ;;
  signal <~ lift (postprocess kw audio_info signal) ;;
  source <~ lift (Py.getitem (sources self) source_idx) ;;
  match transform self with
  | Some tfm =>
      args <~ draw (fun state => instantiate tfm state signal) ;;
      ret (mkSample signal source_idx item_idx source path (Some args))
  | None => ret (mkSample signal source_idx item_idx source path None)
  end.

End Loader.
End AudioLoader.

(** ** Multitrack alignment *)

(** The text of [p] before its last ['/'], when it has one. *)
Fixpoint dirname (p : string) : option string :=
  match p with
  | EmptyString => None
  | String c rest =>
      match dirname rest with
      | Some d => Some (String c d)
      | None => if Ascii.eqb c "/"%char then Some EmptyString else None
      end
  end.

(** [Path(p).parent] for a relative path in normal form (no empty or dot
    component, no trailing separator); pathlib's normalisation of other
    paths is not modelled. *)
Definition parent (p : string) : string :=
  match dirname p with
  | Some d => d
  | None => "."
  end.

(** [default_matcher] *)
Definition default_matcher (x y : string) : bool :=
  String.eqb (parent x) (parent y).

(** [np.argmax(lens)]: the first index of the maximum; [None] stands for
    the [ValueError] on an empty sequence. *)
Fixpoint argmax (lens : list nat) : option nat :=
  match lens with
  | [] => None
  | n :: rest =>
      match argmax rest with
      | None => Some O
      | Some j => if (nth j rest O <=? n)%nat then Some O else Some (S j)
      end
  end.

(** [l.insert(i, v)] for [i] within [l] *)
Definition list_insert {A} (i : nat) (v : A) (l : list A) : list A :=
  firstn i l ++ v :: skipn i l.

Section Align.
Variable matcher : string -> string -> bool.

(** The body of [for l in lists] at position [i] of the reference, whose
    entry there is [x]. *)
Definition align_one (i : nat) (x : Item) (l : list Item) : list Item :=
  match nth_error l i with
  | None => l ++ [sentinel]
  | Some y =>
      if matcher (path y) (path x) then l else list_insert i sentinel l
  end.

(** [for i, x in enumerate(longest_list)]: the list iterator reads the
    reference, which is one of [lists] and may have grown, at each
    step.  [r] is the position of the reference in [lists].  The loop has
    no bound of its own, hence the fuel; [None] is fuel exhausted. *)
Fixpoint align_loop (fuel : nat) (r i : nat) (lists : list (list Item))
  : option (list (list Item)) :=
  match fuel with
  | O => None
  | S fuel' =>
      match nth_error (nth r lists []) i with
      | None => Some lists
      | Some x => align_loop fuel' r (S i) (map (align_one i x) lists)
      end
  end.

(** [align_lists(lists, matcher)]; the catalogs are distinct list objects,
    updated in place. *)
Definition align_lists (fuel : nat) (lists : list (list Item))
  : option (Py.Res (list (list Item))) :=
  match argmax (map (@List.length Item) lists) with
  | None =>
      Some (Py.Raise (Py.mkExn Py.ValueError
                        "attempt to get argmax of an empty sequence"))
  | Some r =>
      match align_loop fuel r O lists with
      | Some out => Some (Py.Ok out)
      | None => None
      end
  end.


End Align.

(** ** AudioDataset *)

Module AudioDataset.
Section Dataset.
Context `{B : Backend}.

(** The loaders are named by strings; the loaders of a list are named by
    their positions. *)
Record t := mk {
  loaders : Dict AudioLoader.t;
  loudness_cutoff : Q;
  num_channels : Z;
  length : Z;
  transform : option Transform;
  sample_rate : Z;
  duration : Q;
  offset : Value;
  aligned : bool;
  shuffle_loaders : bool;
  without_replacement : bool
}.

(** What [__getitem__] returns: the samples by loader name with [idx] and
    the optional [transform_args], or, with a single loader, its sample
    popped up into the main dict. *)
Inductive Output :=
| Tracks (tracks : Dict AudioLoader.Sample) (idx : Z)
         (targs : option TransformArgs)
| Single (sample : AudioLoader.Sample) (idx : Z)
         (targs : option TransformArgs).

(** [loader_kwargs] as first built *)
Definition loader_kwargs (self : t) (idx : Z) : AudioLoader.Kwargs :=
  AudioLoader.mkKwargs (sample_rate self) (duration self)
    (loudness_cutoff self) (num_channels self) VNone None None
    (if without_replacement self then Some idx else None).

(** [loader_kwargs.update({"offset": ..., "source_idx": ..., "item_idx": ...})] *)
Definition update (kw : AudioLoader.Kwargs) (offset : Value)
    (source_idx item_idx : Z) : AudioLoader.Kwargs :=
  AudioLoader.mkKwargs (AudioLoader.kw_sample_rate kw)
    (AudioLoader.kw_duration kw) (AudioLoader.kw_loudness_cutoff kw)
    (AudioLoader.kw_num_channels kw) offset (Some source_idx)
    (Some item_idx) (AudioLoader.kw_global_idx kw).

(** [for key in keys[1:]]; [k0] is [keys[0]]. *)
Fixpoint rest_loop (self : t) (k0 : string) (kw : AudioLoader.Kwargs)
    (keys : list string) (item : Dict AudioLoader.Sample)
  : Eff (Dict AudioLoader.Sample) :=
  match keys with
  | [] => ret item
  | key :: keys' =>
      loader <~ lift (dict_get (loaders self) key) ;;
      kw <~ (if aligned self then
               first <~ lift (dict_get item k0) ;;
               offset <~ lift (dict_get
                                 (metadata (AudioLoader.signal first))
                                 "offset") ;;
               ret (update kw offset (AudioLoader.source_idx first)
                      (AudioLoader.item_idx first))
             else ret kw) ;;
      sample <~ AudioLoader.call loader kw ;;
      rest_loop self k0 kw keys' (dict_set item key sample)
  end.

(** [{k: item[k] for k in keys}] *)
Fixpoint sort_back (item : Dict AudioLoader.Sample) (keys : list string)
    (acc : Dict AudioLoader.Sample) : Py.Res (Dict AudioLoader.Sample) :=
  match keys with
  | [] => Py.Ok acc
  | k :: keys' => v <- dict_get item k ;; sort_back item keys' (dict_set acc k v)
  end.

(** The body of [__getitem__] after [state = util.random_state(idx)]. *)
Definition getitem_body (self : t) (idx : Z) : Eff Output :=
  let keys := map fst (loaders self) in
  keys <~ (if shuffle_loaders self
           then draw (fun state => shuffle state keys)
           else ret keys) ;;
  let kw := loader_kwargs self idx in
  k0 <~ lift (Py.getitem keys 0) ;;
  loader <~ lift (dict_get (loaders self) k0) ;;
  first <~ AudioLoader.call loader kw ;;
  item <~ rest_loop self k0 kw (tl keys) (dict_set [] k0 first) ;;
  let keys := map fst (loaders self) in
  item <~ lift (sort_back item keys []) ;;
  targs <~ match transform self with
           | Some tfm =>
               k <~ lift (Py.getitem keys 0) ;;
               s <~ lift (dict_get item k) ;;
               a <~ draw (fun state =>
                            instantiate tfm state (AudioLoader.signal s)) ;;
               ret (Some a)
           | None => ret None
           end ;;
  match keys with
  | [k] =>
      sample <~ lift (dict_get item k) ;;
      ret (Single sample idx
             (match AudioLoader.transform_args sample with
              | Some a => Some a
              | None => targs
              end))
  | _ => ret (Tracks item idx targs)
  end.

(** [__getitem__] *)
Definition getitem (self : t) (idx : Z) (w : World) : Py.Res Output * World :=
  let '(r, _, w') := getitem_body self idx (random_state idx) w in (r, w').

(** [__len__] *)
Definition len (self : t) : Z := length self.


End Dataset.
End AudioDataset.

(** ** Streaming decode *)

Module Stream.
Section Decode.
Context `{B : Backend}.

Record Kwargs := mkKwargs {
  offset : Value;
  duration : Q;
  loudness_cutoff : Q;
  num_channels : Z;
  sample_rate : Z;
  num_excerpts : Z;
  max_excerpts : option Z;
  random_mono_channel : bool
}.

(** [{**sample, "signal": signal}] after [del sample[key]] *)
Record Out := mkOut { carried : Dict Blob; out_signal : AudioSignal }.

(** The text of [key] after its last ['.'], when it has one. *)
Fixpoint after_last_dot (key : string) : option string :=
  match key with
  | EmptyString => None
  | String c rest =>
      match after_last_dot rest with
      | Some t => Some t
      | None => if Ascii.eqb c "."%char then Some rest else None
      end
  end.

(** A dot followed by [key] with every match of the pattern [.*[.]]
    removed by [re.sub], for a key of one line. *)
Definition extension (key : string) : string :=
  ("." ++ match after_last_dot key with Some t => t | None => key end)%string.

(** [extension in util.AUDIO_EXTENSIONS] *)
Definition is_audio (key : string) : bool :=
  existsb (String.eqb (extension key)) AUDIO_EXTENSIONS.

(** The [for key, value in sample.items()] loop with its [break]. *)
Definition find_audio (sample : Dict Blob) : option (string * Blob) :=
  find (fun kv => is_audio (fst kv)) sample.

(** [del sample[key]] *)
Definition dict_del (sample : Dict Blob) (key : string) : Dict Blob :=
  filter (fun kv => negb (String.eqb (fst kv) key)) sample.

(** The test of the [except (RuntimeError, soundfile.LibsndfileError,
    ValueError)] clause together with the [if] under it. *)
Definition recovers (e : Py.Exn) : bool :=
  match Py.exn_class e with
  | Py.LibsndfileError => true
  | Py.RuntimeError | Py.ValueError =>
      Py.str_in AudioLoader.tensor_mismatch (Py.str e)
      || Py.str_in "is empty!" (Py.str e)
      || Py.str_in "array is too big" (Py.str e)
  | _ => false
  end.

Definition warning (sample : Dict Blob) : string :=
  ("Warning: Failed to find audio key in sample with keys "
   ++ String.concat ", " (map fst sample) ++ ".")%string.

Definition skipping (key : string) : string :=
  ("Error loading audio. Value: " ++ key ++ " Skipping...")%string.

(** Lines 601-609: downmix, resample and pad the batch of excerpts. *)
Definition postprocess (kw : Kwargs) (signals : Batch) : Py.Res Batch :=
  let signals :=
    if num_channels kw =? 1 then
      if random_mono_channel kw then batch_to_rand_mono signals
      else batch_to_mono signals
    else signals in
  let signals := batch_resample signals (sample_rate kw) in
  d <- batch_duration signals ;;
  Py.Ok (if Qltb d (duration kw)
         then batch_zero_pad_to signals
                (int_ (duration kw * inject_Z (sample_rate kw)))
         else signals).

(** The generator, run to its end: the records it yields and the
    exception that ended it, if one did. *)
Fixpoint decode_loop (kw : Kwargs) (data : list (Dict Blob))
    (state : RandomState) (w : World)
  : list Out * option Py.Exn * RandomState * World :=
  match data with
  | [] => ([], None, state, w)
  | sample :: data' =>
      match find_audio sample with
      | None =>
          decode_loop kw data' state
            (mkWorld (stdout w ++ [warning sample]) (corrupt_txt w))
      | Some (key, value) =>
          match salient_excerpts value (duration kw) state
                  (loudness_cutoff kw) (num_excerpts kw) (max_excerpts kw) with
          | (Py.Raise e, state') =>
              if recovers e then
                decode_loop kw data' state'
                  (mkWorld (stdout w ++ [skipping key]) (corrupt_txt w))
              else ([], Some e, state', w)
          | (Py.Ok signals, state') =>
              match postprocess kw signals with
              | Py.Raise e => ([], Some e, state', w)
              | Py.Ok signals =>
                  let outs :=
                    map (mkOut (dict_del sample key)) (batch_iter signals) in
                  let '(more, exn, state'', w') :=
                    decode_loop kw data' state' w in
                  (outs ++ more, exn, state'', w')
              end
          end
      end
  end.

(** [decode_audiosignal] *)
Definition decode_audiosignal (kw : Kwargs) (data : list (Dict Blob))
    (state : RandomState) (w : World)
  : list Out * option Py.Exn * RandomState * World :=
  match offset kw with
  | VNone => decode_loop kw data state w
  | _ => ([], Some (Py.mkExn (Py.OtherError "AssertionError") EmptyString),
          state, w)
  end.

End Decode.
End Stream.

(** ** The merge of the JSON metadata *)

Module Json.
Section Combine.
Context `{B : Backend}.

(** [value.items()] of an entry decoded by [decode_json]; a JSON value
    that is no object raises. *)
Variable json_items : Blob -> Py.Res (Dict Value).

(** [for k, v in data["json"].items(): data[audio_key].metadata[k] = v] *)
Definition set_metadata (fields : Dict Value) (signal : AudioSignal)
  : AudioSignal :=
  fold_left
    (fun s kv => mkSignal (audio_data s) (num_channels s) (sample_rate s)
                   (dict_set (metadata s) (fst kv) (snd kv)))
    fields signal.

(** [combine_json] on a record [{**carried, "signal": signal}] of the
    decode stage; the value is the signal of the dict returned, [None] when
    [None] is returned. *)
Definition combine_json (data : Stream.Out) : Py.Res (option AudioSignal) :=
  match find (fun kv => Py.str_in "json" (fst kv)) (Stream.carried data) with
  | None => Py.Ok None
  | Some (json_key, value) =>
      fields <- json_items value ;;
      Py.Ok (Some (set_metadata fields (Stream.out_signal data)))
  end.

End Combine.
End Json.

(** ** Observations on catalogs and keys *)

(** The entries of a catalog that are no sentinel, in order. *)
Definition real_entries (l : list Item) : list Item :=
  filter (fun y => negb (String.eqb (path y) "none")) l.

(** Whether the character [c] occurs in [s]. *)
Fixpoint has_char (c : ascii) (s : string) : bool :=
  match s with
  | EmptyString => false
  | String c' rest => Ascii.eqb c' c || has_char c rest
  end.

(** ** Contracts of the collaborators *)

(** Modelled from the spec: the contracts of [AudioSignal.zeros],
    [to_mono], [resample] and [zero_pad_to], which live in
    [audiotools.core].  A zero signal has exactly
    [round(duration * sample_rate)] samples, the requested channel count and
    rate; downmixing a mono signal and resampling to the signal's own rate
    leave the samples alone; resampling sets the rate; padding fills the
    shortfall with zeros at the trailing edge. *)
Record BackendLaws `{B : Backend} : Prop := {
  zeros_spec : forall d sr n,
    audio_data (zeros d sr n)
      = repeat (silence n) (Z.to_nat (round_ (d * inject_Z sr)))
    /\ num_channels (zeros d sr n) = n
    /\ sample_rate (zeros d sr n) = sr;
  to_mono_mono : forall s,
    num_channels s = 1 ->
    audio_data (to_mono s) = audio_data s
    /\ num_channels (to_mono s) = 1
    /\ sample_rate (to_mono s) = sample_rate s;
  resample_rate : forall s r, sample_rate (resample s r) = r;
  resample_same : forall s,
    audio_data (resample s (sample_rate s)) = audio_data s
    /\ num_channels (resample s (sample_rate s)) = num_channels s;
  zero_pad_to_spec : forall s n,
    audio_data (zero_pad_to s n)
      = audio_data s
        ++ repeat (silence (num_channels s)) (Z.to_nat (n - signal_length s))
    /\ num_channels (zero_pad_to s n) = num_channels s
    /\ sample_rate (zero_pad_to s n) = sample_rate s
}.

(** [state.shuffle] permutes its argument. *)
Definition shuffle_permutes `{B : Backend} : Prop :=
  forall (A : Type) (state : RandomState) (l : list A),
    Permutation (fst (shuffle state l)) l.

(** ** A small backend to run the definitions on

    Files are told apart by their paths; a readable file holds a single
    frame at 3 Hz. *)

Module Toy.

Definition one_frame (path : string) (offset : Value) : AudioSignal :=
  mkSignal [[1 # 2]%Q] 1 3 [("offset", offset)].

Definition read (path : string) (offset : Value) : Py.Res AudioSignal :=
  if String.eqb path "bad/corrupt.wav"
  then Py.Raise (Py.mkExn Py.LibsndfileError "Error opening file")
  else if String.eqb path "bad/empty.wav"
  then Py.Raise (Py.mkExn Py.RuntimeError "Audio file bad/empty.wav is empty!")
  else if String.eqb path "bad/big.wav"
  then Py.Raise (Py.mkExn Py.RuntimeError "array is too big")
  else if String.eqb path "bad/denied.wav"
  then Py.Raise (Py.mkExn (Py.OtherError "PermissionError") "Permission denied")
  else Py.Ok (one_frame path offset).

Definition keep_first (s : AudioSignal) : AudioSignal :=
  if num_channels s =? 1 then s
  else mkSignal (map (firstn 1) (audio_data s)) 1 (sample_rate s) (metadata s).

Definition relabel (s : AudioSignal) (rate : Z) : AudioSignal :=
  if sample_rate s =? rate then s
  else mkSignal (audio_data s) (num_channels s) rate (metadata s).

Definition pad (s : AudioSignal) (n : Z) : AudioSignal :=
  mkSignal
    (audio_data s
     ++ repeat (silence (num_channels s)) (Z.to_nat (n - signal_length s)))
    (num_channels s) (sample_rate s) (metadata s).

Definition first_item (lists : list (list Item)) : Py.Res (Item * Z * Z) :=
  match lists with
  | (x :: _) :: _ => Py.Ok (x, 0, 0)
  | _ => Py.Raise (Py.mkExn Py.ValueError "a must be non-empty")
  end.

#[export] Instance backend : Backend := {|
  RandomState := Z;
  Transform := unit;
  TransformArgs := Z;
  Blob := string;
  Batch := list AudioSignal;
  random_state := fun seed => seed;
  shuffle := fun A state l => (rev l, state + 1);
  choose_from_list_of_lists := fun state lists _ => (first_item lists, state + 1);
  zeros := fun d sr n =>
    mkSignal (repeat (silence n) (Z.to_nat (round_ (d * inject_Z sr)))) n sr
      [("offset", VNum 0)];
  salient_excerpt := fun path _ state _ => (read path (VNum 0), state + 1);
  load := fun path offset _ => read path offset;
  to_mono := keep_first;
  resample := relabel;
  zero_pad_to := pad;
  instantiate := fun _ state _ => (state, state + 1);
  encodable := fun _ => true;
  AUDIO_EXTENSIONS := [".wav"; ".flac"; ".mp3"; ".mp4"];
  salient_excerpts := fun blob _ state _ _ _ =>
    (match read blob (VNum 0) with
     | Py.Ok s => Py.Ok [s]
     | Py.Raise e => Py.Raise e
     end, state + 1);
  batch_to_mono := map keep_first;
  batch_to_rand_mono := map keep_first;
  batch_resample := fun b rate => map (fun s => relabel s rate) b;
  batch_duration := fun b =>
    match b with
    | [] => Py.Ok 0%Q
    | s :: _ => signal_duration s
    end;
  batch_zero_pad_to := fun b n => map (fun s => pad s n) b;
  batch_iter := fun b => b
|}.

(** A loader over one source with one readable file. *)
Definition loader : AudioLoader.t :=
  AudioLoader.init ["a"] [[mkItem "a/1.wav" []]] None None false 0.

(** Half a second at 3 Hz, mono. *)
Definition kwargs (offset : Value) (source_idx item_idx global_idx : option Z)
  : AudioLoader.Kwargs :=
  AudioLoader.mkKwargs 3 (1 # 2) (-40 # 1) 1 offset source_idx item_idx
    global_idx.

Definition world : World := mkWorld [] [].

(** A loader over one source whose files fail to decode. *)
Definition bad_loader : AudioLoader.t :=
  AudioLoader.init ["bad"]
    [[mkItem "bad/corrupt.wav" []; mkItem "bad/empty.wav" [];
      mkItem "bad/big.wav" []; mkItem "bad/denied.wav" []]]
    None None false 0.

(** Two aligned tracks: the drums catalog holds a sentinel where the
    vocals have a recording without drums. *)
Definition dataset : AudioDataset.t :=
  AudioDataset.mk
    [("vocals",
      AudioLoader.init ["musdb"]
        [[mkItem "s1/vocals.wav" []; mkItem "s2/vocals.wav" [];
          mkItem "s3/vocals.wav" []]] None None false 0);
     ("drums",
      AudioLoader.init ["musdb"]
        [[mkItem "s1/drums.wav" []; sentinel; mkItem "s3/drums.wav" [];
          mkItem "s4/drums.wav" []]] None None false 0)]
    (-40 # 1) 1 1000 None 3 (1 # 2) VNone true false true.

(** The same tracks, with the loaders called in shuffled order. *)
Definition shuffled_dataset : AudioDataset.t :=
  AudioDataset.mk (AudioDataset.loaders dataset) (-40 # 1) 1 1000 None 3
    (1 # 2) VNone true true true.

(** A JSON entry is told by its text: an object with one field, or a
    value that is no object. *)
Definition json_items (value : string) : Py.Res (Dict Value) :=
  if String.eqb value "[1, 2]"
  then Py.Raise (Py.mkExn (Py.OtherError "AttributeError")
                   "'list' object has no attribute 'items'")
  else Py.Ok [("title", VStr value)].

(** The streaming arguments for the same half second at 3 Hz. *)
Definition stream_kwargs : Stream.Kwargs :=
  Stream.mkKwargs VNone (1 # 2) (-40 # 1) 1 3 50 None false.

(** Member datasets that answer with their own position and the index
    they were asked for: [(position, length)]. *)
Definition probe_len (d : nat * Z) : Z := snd d.

Definition probe_getitem (d : nat * Z) (i : Z) : Py.Res (nat * Z) :=
  Py.Ok (fst d, i).

End Toy.

(** * Properties *)

(** ** ConcatDataset *)

Lemma sum_fold_right (l : list Z) : Py.sum l = fold_right Z.add 0 l.
Proof.
  unfold Py.sum. rewrite <- fold_left_rev_right.
  assert (H : forall a b, fold_right (fun y x => x + y) a b = fold_right Z.add a b).
  { intros a b. induction b as [|z b IH]; simpl; [reflexivity | rewrite IH; lia]. }
  rewrite H. clear H.
  assert (G : forall m acc, fold_right Z.add acc (rev m) = fold_right Z.add 0 m + acc).
  { induction m as [|z m IH]; intros acc; simpl; [lia|].
    rewrite fold_right_app. simpl. rewrite IH. lia. }
  rewrite G. lia.
Qed.

Lemma getitem_in_range {A} (l : list A) (j : Z) :
  0 <= j < Py.len l ->
  exists a, nth_error l (Z.to_nat j) = Some a /\ Py.getitem l j = Py.Ok a.
Proof.
  intros Hj. unfold Py.len in Hj. unfold Py.getitem.
  destruct (j <? 0) eqn:Hneg; [apply Z.ltb_lt in Hneg; lia|].
  assert (Hr : (0 <=? j) && (j <? Z.of_nat (List.length l)) = true).
  { apply andb_true_iff. split; [apply Z.leb_le | apply Z.ltb_lt]; lia. }
  rewrite Hr.
  destruct (nth_error l (Z.to_nat j)) as [a|] eqn:Hn.
  - exists a. split; reflexivity.
  - apply nth_error_None in Hn. lia.
Qed.

Section ConcatFacts.
Variables Dataset Item : Type.
Variable member_len : Dataset -> Z.
Variable member_getitem : Dataset -> Z -> Py.Res Item.

Lemma concat_len_pos (datasets : list Dataset) :
  datasets <> [] -> 0 < Py.len datasets.
Proof.
  destruct datasets as [|d ds]; [congruence|]. intros _.
  unfold Py.len. simpl List.length. lia.
Qed.

Lemma concat_getitem_routes (datasets : list Dataset) (idx : Z) :
  datasets <> [] ->
  exists dataset,
    nth_error datasets (Z.to_nat (idx mod Py.len datasets)) = Some dataset
    /\ ConcatDataset.getitem member_getitem datasets idx
       = member_getitem dataset (idx / Py.len datasets).
Proof.
  intros Hne. pose proof (concat_len_pos Hne) as Hk.
  unfold ConcatDataset.getitem, Py.mod_, Py.floordiv.
  destruct (Py.len datasets =? 0) eqn:E; [apply Z.eqb_eq in E; lia|].
  simpl.
  destruct (@getitem_in_range _ datasets (idx mod Py.len datasets)) as [d [Hn Hg]].
  { apply Z.mod_pos_bound. exact Hk. }
  exists d. split; [exact Hn|]. rewrite Hg. reflexivity.
Qed.

End ConcatFacts.

(** C8: [ConcatDataset.__len__] is the sum of the member lengths, and
    [__getitem__(idx)] delegates to member [idx mod k] with inner index
    [idx div k], where [k] is the number of members; with members of
    lengths 2 and 3, [idx = 0..4] go to members [0,1,0,1,0] with inner
    indices [0,0,1,1,2]. *)
Theorem ConcatDataset_round_robin
    (Dataset Item : Type) (member_len : Dataset -> Z)
    (member_getitem : Dataset -> Z -> Py.Res Item)
    (datasets : list Dataset) (idx : Z) (Hne : datasets <> []) :
  ConcatDataset.len member_len datasets
    = fold_right Z.add 0 (map member_len datasets)
  /\ (exists dataset,
        nth_error datasets (Z.to_nat (idx mod Py.len datasets)) = Some dataset
        /\ ConcatDataset.getitem member_getitem datasets idx
           = member_getitem dataset (idx / Py.len datasets))
  /\ map (ConcatDataset.getitem Toy.probe_getitem [(0%nat, 2); (1%nat, 3)])
         [0; 1; 2; 3; 4]
     = map Py.Ok [(0%nat, 0); (1%nat, 0); (0%nat, 1); (1%nat, 1); (0%nat, 2)].
Proof.
  split; [apply sum_fold_right|].
  split; [apply concat_getitem_routes; exact Hne | reflexivity].
Qed.

Lemma ConcatDataset_round_robin_witness :
  ConcatDataset.len Toy.probe_len [(0%nat, 2); (1%nat, 3)] = 5
  /\ ConcatDataset.getitem Toy.probe_getitem [(0%nat, 2); (1%nat, 3)] 3
     = Py.Ok (1%nat, 1).
Proof.
  destruct (@ConcatDataset_round_robin _ _ Toy.probe_len Toy.probe_getitem
              [(0%nat, 2); (1%nat, 3)] 3 ltac:(discriminate))
    as [Hlen [[d [Hn Hg]] _]].
  split.
  - rewrite Hlen. reflexivity.
  - rewrite Hg. vm_compute in Hn. inversion Hn. reflexivity.
Defined.

(** C10 (amended): [ConcatDataset.__getitem__] checks no bound on the inner
    index.  An [idx] within [0 .. len-1] whose inner index [idx div k] is
    at or beyond the length of the member it is routed to exists exactly
    when some member [j] has [len_j * k + j] below the concatenated length;
    the item is then still requested from that member.  With member lengths
    2 and 3, [idx = 4] asks the member of length 2 for inner index 2. *)
Theorem ConcatDataset_unchecked_inner_index
    (Dataset Item : Type) (member_len : Dataset -> Z)
    (member_getitem : Dataset -> Z -> Py.Res Item)
    (datasets : list Dataset)
    (Hlen : Forall (fun d => 0 <= member_len d) datasets) :
  ((exists idx dataset,
       0 <= idx < ConcatDataset.len member_len datasets
       /\ nth_error datasets (Z.to_nat (idx mod Py.len datasets)) = Some dataset
       /\ member_len dataset <= idx / Py.len datasets
       /\ ConcatDataset.getitem member_getitem datasets idx
          = member_getitem dataset (idx / Py.len datasets))
   <->
   (exists j dataset,
       nth_error datasets j = Some dataset
       /\ member_len dataset * Py.len datasets + Z.of_nat j
          < ConcatDataset.len member_len datasets))
  /\ ConcatDataset.getitem Toy.probe_getitem [(0%nat, 2); (1%nat, 3)] 4
     = Py.Ok (0%nat, 2).
Proof.
  split; [|reflexivity].
  split.
  - intros [idx [d [Hidx [Hn [Hle _]]]]].
    exists (Z.to_nat (idx mod Py.len datasets)), d. split; [exact Hn|].
    assert (Hk : 0 < Py.len datasets).
    { apply concat_len_pos. intros ->. destruct (Z.to_nat _); discriminate. }
    pose proof (Z.mod_pos_bound idx _ Hk) as Hm.
    pose proof (Z.div_mod idx (Py.len datasets) ltac:(lia)) as Hdm.
    rewrite Z2Nat.id by lia. nia.
  - intros [j [d [Hn Hlt]]].
    assert (Hj : Z.of_nat j < Py.len datasets).
    { unfold Py.len. apply Nat2Z.inj_lt. apply nth_error_Some. congruence. }
    assert (Hd : 0 <= member_len d).
    { rewrite Forall_forall in Hlen. apply Hlen. eapply nth_error_In; eauto. }
    set (k := Py.len datasets) in *.
    assert (Hmod : (member_len d * k + Z.of_nat j) mod k = Z.of_nat j).
    { rewrite Z.add_comm, Z.mod_add by lia. apply Z.mod_small. lia. }
    assert (Hdiv : (member_len d * k + Z.of_nat j) / k = member_len d).
    { rewrite Z.add_comm, Z.div_add by lia. rewrite Z.div_small by lia. lia. }
    exists (member_len d * k + Z.of_nat j), d.
    split; [nia|]. rewrite Hmod, Hdiv, Nat2Z.id.
    split; [exact Hn|]. split; [lia|].
    destruct (@concat_getitem_routes _ _ member_getitem datasets
                (member_len d * k + Z.of_nat j)) as [d' [Hn' Hg]].
    { intros ->. destruct j; discriminate. }
    fold k in Hn', Hg. rewrite Hmod, Nat2Z.id in Hn'. rewrite Hdiv in Hg.
    congruence.
Qed.

Lemma ConcatDataset_unchecked_inner_index_witness :
  exists idx dataset,
    0 <= idx < ConcatDataset.len Toy.probe_len [(0%nat, 2); (1%nat, 3)]
    /\ nth_error [(0%nat, 2); (1%nat, 3)] (Z.to_nat (idx mod 2)) = Some dataset
    /\ Toy.probe_len dataset <= idx / 2
    /\ ConcatDataset.getitem Toy.probe_getitem [(0%nat, 2); (1%nat, 3)] idx
       = Toy.probe_getitem dataset (idx / 2).
Proof.
  apply (proj1 (@ConcatDataset_unchecked_inner_index _ _ Toy.probe_len
                  Toy.probe_getitem [(0%nat, 2); (1%nat, 3)]
                  ltac:(repeat constructor; vm_compute; discriminate))).
  exists 0%nat, (0%nat, 2). split; [reflexivity | vm_compute; reflexivity].
Defined.

(** The claim as first worded fails: members of lengths 3 and 2 have
    unequal lengths, yet every [idx] below the concatenated length 5 is
    routed to an inner index within its member. *)
Lemma ConcatDataset_lengths_3_2_stay_in_range :
  let datasets := [(0%nat, 3); (1%nat, 2)] in
  Toy.probe_len (0%nat, 3) <> Toy.probe_len (1%nat, 2)
  /\ ~ exists idx dataset,
        idx < ConcatDataset.len Toy.probe_len datasets
        /\ nth_error datasets (Z.to_nat (idx mod Py.len datasets)) = Some dataset
        /\ Toy.probe_len dataset <= idx / Py.len datasets.
Proof.
  split; [vm_compute; discriminate|].
  intros [idx [d [Hlt [Hn Hle]]]].
  change (ConcatDataset.len Toy.probe_len [(0%nat, 3); (1%nat, 2)]) with 5 in Hlt.
  change (Py.len [(0%nat, 3); (1%nat, 2)]) with 2 in Hn, Hle.
  pose proof (Z.mod_pos_bound idx 2 ltac:(lia)) as Hm.
  pose proof (Z.div_mod idx 2 ltac:(lia)) as Hdm.
  assert (Hc : idx mod 2 = 0 \/ idx mod 2 = 1) by lia.
  destruct Hc as [Hc|Hc]; rewrite Hc in Hn; simpl in Hn; inversion Hn; subst d;
    unfold Toy.probe_len in Hle; simpl in Hle; lia.
Qed.

(** ** Resumable samplers *)

Section SamplerFacts.
Variable Index : Type.

Lemma enumerate_from_all (start i : Z) (wrapped : list Index) :
  start <= i -> Sampler.enumerate_from start i wrapped = wrapped.
Proof.
  revert i. induction wrapped as [|x rest IH]; intros i Hi; simpl.
  - reflexivity.
  - destruct (start <=? i) eqn:E; [|apply Z.leb_gt in E; lia].
    rewrite IH by lia. reflexivity.
Qed.

Lemma enumerate_from_skipn (start i : Z) (wrapped : list Index) :
  Sampler.enumerate_from start i wrapped
  = skipn (Z.to_nat (start - i)) wrapped.
Proof.
  revert i. induction wrapped as [|x rest IH]; intros i; simpl.
  - now rewrite skipn_nil.
  - destruct (start <=? i) eqn:E.
    + apply Z.leb_le in E. rewrite enumerate_from_all by lia.
      replace (Z.to_nat (start - i)) with O by lia. reflexivity.
    + apply Z.leb_gt in E. rewrite IH.
      replace (Z.to_nat (start - i)) with (S (Z.to_nat (start - (i + 1)))) by lia.
      reflexivity.
Qed.

Lemma skipn_lastn (k : Z) (l : list Index) :
  skipn (Z.to_nat k) l = Sampler.lastn (Z.to_nat (Py.len l - k)) l.
Proof.
  unfold Sampler.lastn, Py.len.
  destruct (Z_le_gt_dec k (Z.of_nat (List.length l))) as [Hle|Hgt].
  - destruct (Z_le_gt_dec 0 k) as [H0|H0].
    + f_equal. lia.
    + replace (Z.to_nat k) with O by lia.
      replace (List.length l - Z.to_nat (Z.of_nat (List.length l) - k))%nat
        with O by lia.
      reflexivity.
  - replace (Z.to_nat (Z.of_nat (List.length l) - k)) with O by lia.
    rewrite Nat.sub_0_r, skipn_all. apply skipn_all2. lia.
Qed.

Lemma passes_from_zero (ws : list (list Index)) :
  Sampler.passes (Sampler.mk 0) ws = ws.
Proof.
  induction ws as [|w ws IH]; simpl; [reflexivity|].
  rewrite enumerate_from_all by lia. now rewrite IH.
Qed.

Lemma passes_first (s : Sampler.t) (w : list Index) (ws : list (list Index)) :
  Sampler.passes s (w :: ws)
  = Sampler.lastn (Z.to_nat (Py.len w - Sampler.start_idx s)) w :: ws.
Proof.
  simpl. rewrite passes_from_zero, enumerate_from_skipn, Z.sub_0_r.
  now rewrite skipn_lastn.
Qed.

End SamplerFacts.

(** C9: a resumable sampler built with [start_idx = k] yields, on its first
    full pass over a wrapped sequence of length [L], the last [L - k]
    indices of that sequence in order, and on every later pass the whole
    wrapped sequence; the distributed variant does so with [k] replaced by
    [k] integer-divided by the replica count. *)
Theorem resumable_sampler_passes
    (Index : Type) (w : list Index) (ws : list (list Index))
    (k num_replicas : Z) (Hr : num_replicas <> 0) :
  Sampler.passes (Sampler.sequential_init (Some k)) (w :: ws)
    = Sampler.lastn (Z.to_nat (Py.len w - k)) w :: ws
  /\ (0 <= k <= Py.len w ->
      Py.len (Sampler.lastn (Z.to_nat (Py.len w - k)) w) = Py.len w - k)
  /\ exists s,
       Sampler.distributed_init num_replicas (Some k) = Py.Ok s
       /\ Sampler.start_idx s = k / num_replicas
       /\ Sampler.passes s (w :: ws)
          = Sampler.lastn (Z.to_nat (Py.len w - k / num_replicas)) w :: ws.
Proof.
  split; [apply passes_first|]. split.
  - intros Hk. unfold Sampler.lastn, Py.len in *. rewrite length_skipn. lia.
  - exists (Sampler.mk (k / num_replicas)).
    unfold Sampler.distributed_init, Py.floordiv.
    destruct (num_replicas =? 0) eqn:E; [apply Z.eqb_eq in E; contradiction|].
    split; [reflexivity|]. split; [reflexivity|]. apply passes_first.
Qed.

Lemma resumable_sampler_passes_witness :
  Sampler.passes (Sampler.sequential_init (Some 2))
    [Sampler.range 5; Sampler.range 5; Sampler.range 5]
  = [[2; 3; 4]; [0; 1; 2; 3; 4]; [0; 1; 2; 3; 4]].
Proof.
  rewrite (proj1 (@resumable_sampler_passes Z (Sampler.range 5)
                    [Sampler.range 5; Sampler.range 5] 2 4 ltac:(discriminate))).
  reflexivity.
Defined.

(** ** Multitrack alignment *)



Section AlignFacts.
Variable matcher : string -> string -> bool.

Lemma align_one_length (i : nat) (x : Item) (l : list Item) :
  (List.length l <= List.length (align_one matcher i x l))%nat.
Proof.
  unfold align_one, list_insert.
  destruct (nth_error l i) as [y|] eqn:E.
  - destruct (matcher _ _); [lia|].
    rewrite length_app. simpl. rewrite length_firstn, length_skipn. lia.
  - rewrite length_app. simpl. lia.
Qed.



Hypothesis matcher_refl : forall p, matcher p p = true.



End AlignFacts.






(** ** AudioLoader: the visitation order *)

Lemma range_In (n x : Z) : In x (Sampler.range n) <-> 0 <= x < n.
Proof.
  unfold Sampler.range. rewrite in_map_iff. split.
  - intros [k [<- Hk]]. apply in_seq in Hk. lia.
  - intros Hx. exists (Z.to_nat x). split; [lia|]. apply in_seq. lia.
Qed.

Lemma range_NoDup (n : Z) : NoDup (Sampler.range n).
Proof.
  unfold Sampler.range. apply Finite.Injective_map_NoDup.
  - intros a b. apply Nat2Z.inj.
  - apply seq_NoDup.
Qed.

Lemma range_len (n : Z) : 0 <= n -> Py.len (Sampler.range n) = n.
Proof.
  intros Hn. unfold Py.len, Sampler.range. rewrite length_map, length_seq. lia.
Qed.

Section FlattenFacts.
Context `{B : Backend}.

Lemma flatten_from_In (lists : list (list Item)) :
  forall (k s i : Z),
    In (s, i) (AudioLoader.flatten_from k lists) <->
    exists l, k <= s /\ nth_error lists (Z.to_nat (s - k)) = Some l
              /\ 0 <= i < Py.len l.
Proof.
  induction lists as [|src rest IH]; intros k s i; simpl.
  - split; [intros [] | intros [l [_ [H _]]]].
    destruct (Z.to_nat (s - k)); discriminate.
  - rewrite in_app_iff, in_map_iff, IH. split.
    + intros [[x [Hx Hin]] | [l [Hk [Hn Hi]]]].
      * inversion Hx; subst. apply range_In in Hin.
        exists src. rewrite Z.sub_diag. simpl. split; [lia|]. split; [reflexivity | lia].
      * exists l. split; [lia|].
        replace (Z.to_nat (s - k)) with (S (Z.to_nat (s - (k + 1)))) by lia.
        split; [exact Hn | exact Hi].
    + intros [l [Hk [Hn Hi]]].
      destruct (Z.eq_dec s k) as [->|Hne].
      * rewrite Z.sub_diag in Hn. simpl in Hn. inversion Hn; subst l.
        left. exists i. split; [reflexivity|]. apply range_In. lia.
      * right. exists l. split; [lia|].
        replace (Z.to_nat (s - k)) with (S (Z.to_nat (s - (k + 1)))) in Hn by lia.
        split; [exact Hn | exact Hi].
Qed.

Lemma flatten_from_NoDup (lists : list (list Item)) :
  forall k, NoDup (AudioLoader.flatten_from k lists).
Proof.
  induction lists as [|src rest IH]; intros k; simpl; [constructor|].
  apply NoDup_app.
  - apply Finite.Injective_map_NoDup; [|apply range_NoDup].
    intros a b H. now inversion H.
  - apply IH.
  - intros [s i] H1 H2. apply in_map_iff in H1. destruct H1 as [x [Hx _]].
    inversion Hx; subst. apply flatten_from_In in H2.
    destruct H2 as [l [Hk _]]. lia.
Qed.

Lemma flatten_from_len (lists : list (list Item)) :
  forall k, Py.len (AudioLoader.flatten_from k lists)
            = fold_right Z.add 0 (map (@Py.len Item) lists).
Proof.
  induction lists as [|src rest IH]; intros k; simpl; [reflexivity|].
  unfold Py.len in *. rewrite length_app, length_map, Nat2Z.inj_add, IH.
  unfold Sampler.range. rewrite length_map, length_seq. lia.
Qed.

End FlattenFacts.

Section CoverageFacts.
Context `{B : Backend}.

Lemma init_indices_permutation (Hperm : shuffle_permutes)
    (sources : list string) (lists : list (list Item))
    (weights : option (list Q)) (transform : option Transform)
    (shuffle_ : bool) (shuffle_state : Z) :
  Permutation
    (AudioLoader.audio_indices
       (AudioLoader.init sources lists weights transform shuffle_ shuffle_state))
    (AudioLoader.flatten_from 0 lists).
Proof.
  unfold AudioLoader.init. simpl. destruct shuffle_.
  - apply Hperm.
  - apply Permutation_refl.
Qed.

Lemma getitem_nth {A} (l : list A) (j : Z) (a : A) :
  0 <= j -> nth_error l (Z.to_nat j) = Some a -> Py.getitem l j = Py.Ok a.
Proof.
  intros Hj Hn.
  destruct (@getitem_in_range _ l j) as [a' [Hn' Hg]].
  - split; [exact Hj|]. unfold Py.len.
    assert (Z.to_nat j < List.length l)%nat by (apply nth_error_Some; congruence).
    lia.
  - congruence.
Qed.

Lemma resolve_global (self : AudioLoader.t) (kw : AudioLoader.Kwargs) (g : Z) :
  AudioLoader.kw_source_idx kw = None \/ AudioLoader.kw_item_idx kw = None ->
  AudioLoader.kw_global_idx kw = Some g ->
  AudioLoader.resolve self kw
  = lift (k <- Py.mod_ g (Py.len (AudioLoader.audio_indices self)) ;;
          si <- Py.getitem (AudioLoader.audio_indices self) k ;;
          l <- Py.getitem (AudioLoader.audio_lists self) (fst si) ;;
          audio_info <- Py.getitem l (snd si) ;;
          Py.Ok (audio_info, fst si, snd si)).
Proof.
  intros Hs Hg. unfold AudioLoader.resolve. rewrite Hg.
  destruct Hs as [-> | Hi].
  - reflexivity.
  - rewrite Hi. destruct (AudioLoader.kw_source_idx kw); reflexivity.
Qed.

End CoverageFacts.

(** C2: the flattened, possibly shuffled index list of an [AudioLoader]
    over catalogs totalling [N] items holds every [(source_idx, item_idx)]
    pair of the catalogs exactly once; the call with [global_idx = g],
    [0 <= g < N], resolves to the pair at position [g] of that list and to
    the catalog item there, and [global_idx = g + N] resolves as
    [global_idx = g] does. *)
Theorem global_idx_full_coverage `{B : Backend} (Hperm : shuffle_permutes)
    (sources : list string) (lists : list (list Item))
    (weights : option (list Q)) (transform : option Transform)
    (shuffle_ : bool) (shuffle_state : Z) :
  let self :=
    AudioLoader.init sources lists weights transform shuffle_ shuffle_state in
  let N := Py.len (AudioLoader.audio_indices self) in
  N = fold_right Z.add 0 (map (@Py.len Item) lists)
  /\ NoDup (AudioLoader.audio_indices self)
  /\ (forall s i,
        In (s, i) (AudioLoader.audio_indices self) <->
        exists l, 0 <= s /\ nth_error lists (Z.to_nat s) = Some l
                  /\ 0 <= i < Py.len l)
  /\ (forall kw g state w,
        AudioLoader.kw_source_idx kw = None \/ AudioLoader.kw_item_idx kw = None ->
        AudioLoader.kw_global_idx kw = Some g ->
        0 <= g < N ->
        exists s i l audio_info,
          nth_error (AudioLoader.audio_indices self) (Z.to_nat g) = Some (s, i)
          /\ nth_error lists (Z.to_nat s) = Some l
          /\ nth_error l (Z.to_nat i) = Some audio_info
          /\ AudioLoader.resolve self kw state w
             = (Py.Ok (audio_info, s, i), state, w))
  /\ (forall kw kw' g state w,
        AudioLoader.kw_source_idx kw = None \/ AudioLoader.kw_item_idx kw = None ->
        AudioLoader.kw_source_idx kw' = None \/ AudioLoader.kw_item_idx kw' = None ->
        AudioLoader.kw_global_idx kw = Some g ->
        AudioLoader.kw_global_idx kw' = Some (g + N) ->
        AudioLoader.resolve self kw' state w = AudioLoader.resolve self kw state w).
Proof.
  intros self N.
  pose proof (init_indices_permutation Hperm sources lists weights transform
                shuffle_ shuffle_state) as HP. fold self in HP.
  assert (Hin : forall s i,
             In (s, i) (AudioLoader.audio_indices self) <->
             exists l, 0 <= s /\ nth_error lists (Z.to_nat s) = Some l
                       /\ 0 <= i < Py.len l).
  { intros s i. split.
    - intros H. apply (Permutation_in _ HP) in H.
      apply flatten_from_In in H. now rewrite Z.sub_0_r in H.
    - intros H. apply (Permutation_in _ (Permutation_sym HP)).
      apply flatten_from_In. now rewrite Z.sub_0_r. }
  split.
  { unfold N, Py.len. rewrite (Permutation_length HP).
    apply (flatten_from_len lists 0). }
  split.
  { eapply Permutation_NoDup; [apply Permutation_sym; exact HP|].
    apply flatten_from_NoDup. }
  split; [exact Hin|]. split.
  - intros kw g state w Hs Hg Hrange.
    destruct (@getitem_in_range _ (AudioLoader.audio_indices self) g Hrange)
      as [[s i] [Hn Hget]].
    destruct (proj1 (Hin s i) (nth_error_In _ _ Hn)) as [l [Hs0 [Hl Hi]]].
    destruct (@getitem_in_range _ l i Hi) as [info [Hni Hgi]].
    exists s, i, l, info. repeat split; try assumption.
    rewrite (resolve_global self kw Hs Hg). unfold lift, Py.mod_. fold N.
    destruct (N =? 0) eqn:E; [apply Z.eqb_eq in E; lia|].
    cbn [Py.bind]. rewrite Z.mod_small by lia. rewrite Hget. cbn [Py.bind fst snd].
    change (AudioLoader.audio_lists self) with lists.
    rewrite (getitem_nth lists Hs0 Hl). cbn [Py.bind]. rewrite Hgi. reflexivity.
  - intros kw kw' g state w Hs Hs' Hg Hg'.
    rewrite (resolve_global self kw Hs Hg), (resolve_global self kw' Hs' Hg').
    unfold lift, Py.mod_. fold N.
    destruct (N =? 0) eqn:E; [reflexivity|]. apply Z.eqb_neq in E.
    cbn [Py.bind]. replace (g + N) with (g + 1 * N) by lia.
    now rewrite Z.mod_add.
Qed.

Lemma toy_shuffle_permutes : @shuffle_permutes Toy.backend.
Proof.
  intros A state l. simpl. apply Permutation_sym, Permutation_rev.
Qed.

Lemma global_idx_full_coverage_witness :
  let self :=
    @AudioLoader.init Toy.backend ["a"; "b"]
      [[mkItem "a/1.wav" []; mkItem "a/2.wav" []]; [mkItem "b/1.wav" []]]
      None None true 0 in
  let kw := fun g => AudioLoader.mkKwargs 3 (1 # 2) (-40 # 1) 1 VNone None None (Some g) in
  AudioLoader.audio_indices self = [(1, 0); (0, 1); (0, 0)]
  /\ NoDup (AudioLoader.audio_indices self)
  /\ AudioLoader.resolve self (kw 3) 0 (mkWorld [] [])
     = AudioLoader.resolve self (kw 0) 0 (mkWorld [] []).
Proof.
  intros self kw.
  pose proof (@global_idx_full_coverage Toy.backend toy_shuffle_permutes
                ["a"; "b"]
                [[mkItem "a/1.wav" []; mkItem "a/2.wav" []]; [mkItem "b/1.wav" []]]
                None None true 0) as H.
  destruct H as [_ [Hnd [_ [_ Hwrap]]]].
  split; [reflexivity|]. split; [exact Hnd|].
  apply (Hwrap (kw 0) (kw 3) 0 0 (mkWorld [] []));
    first [left; reflexivity | reflexivity].
Defined.

(** ** AudioLoader: the sampled signal *)

Lemma int_floor (x : Q) : (0 <= x)%Q -> int_ x = Qfloor x.
Proof.
  intros Hx. destruct x as [n d]. unfold int_, Qfloor. simpl.
  apply Z.quot_div_nonneg; [|lia].
  unfold Qle in Hx. simpl in Hx. lia.
Qed.

Lemma int_le_round (x : Q) : (0 <= x)%Q -> int_ x <= round_ x.
Proof.
  intros Hx. rewrite (int_floor Hx). unfold round_.
  destruct (x - inject_Z (Qfloor x) ?= 1 # 2)%Q; [destruct (Z.even _)| |]; lia.
Qed.

Lemma round_nonneg (x : Q) : (0 <= x)%Q -> 0 <= round_ x.
Proof.
  intros Hx. pose proof (int_le_round Hx) as H. rewrite (int_floor Hx) in H.
  pose proof (Qfloor_resp_le _ _ Hx) as H0. change (Qfloor 0) with 0 in H0. lia.
Qed.

Lemma int_le_bound (x : Q) (m : Z) :
  0 <= m -> (x <= inject_Z m)%Q -> int_ x <= m.
Proof.
  intros Hm Hx. destruct (Qlt_le_dec x 0) as [Hneg|Hpos].
  - destruct x as [n d]. unfold int_. simpl.
    assert (Hn : n <= 0) by (unfold Qlt in Hneg; simpl in Hneg; lia).
    pose proof (Z.quot_le_mono n 0 (Zpos d) ltac:(lia) Hn) as H.
    rewrite Z.quot_0_l in H by lia. lia.
  - rewrite (int_floor Hpos). rewrite <- (Qfloor_Z m).
    now apply Qfloor_resp_le.
Qed.

Lemma Qltb_false_le (a b : Q) : Qltb a b = false -> (b <= a)%Q.
Proof.
  unfold Qltb. intros H. apply Qnot_lt_le. intros Hlt.
  apply Qlt_alt in Hlt. change ((a ?= b)%Q = Lt) in Hlt. now rewrite Hlt in H.
Qed.

Section SignalFacts.
Context `{B : Backend}.

Lemma copy_metadata_keeps (audio_info : Item) (s : AudioSignal) :
  audio_data (AudioLoader.copy_metadata audio_info s) = audio_data s
  /\ num_channels (AudioLoader.copy_metadata audio_info s) = num_channels s
  /\ sample_rate (AudioLoader.copy_metadata audio_info s) = sample_rate s.
Proof.
  unfold AudioLoader.copy_metadata. revert s.
  induction (items audio_info) as [|kv kvs IH]; intros s; simpl; [auto|].
  destruct (IH (mkSignal (audio_data s) (num_channels s) (sample_rate s)
                  (dict_set (metadata s) (fst kv) (snd kv)))) as [H1 [H2 H3]].
  simpl in *. auto.
Qed.

Lemma postprocess_pads (HB : BackendLaws) (kw : AudioLoader.Kwargs)
    (audio_info : Item) (decoded out : AudioSignal) :
  0 < AudioLoader.kw_sample_rate kw ->
  AudioLoader.postprocess kw audio_info decoded = Py.Ok out ->
  let r := AudioLoader.resampled kw decoded in
  let n := int_ (AudioLoader.kw_duration kw
                 * inject_Z (AudioLoader.kw_sample_rate kw)) in
  sample_rate out = AudioLoader.kw_sample_rate kw
  /\ num_channels out = num_channels r
  /\ audio_data out
     = audio_data r
       ++ repeat (silence (num_channels r)) (Z.to_nat (n - signal_length r))
  /\ n <= signal_length out.
Proof.
  intros Hsr Hpost r n. unfold AudioLoader.postprocess in Hpost.
  fold r in Hpost.
  assert (Hrate : sample_rate r = AudioLoader.kw_sample_rate kw)
    by apply (resample_rate HB).
  unfold signal_duration in Hpost. rewrite Hrate in Hpost.
  destruct (AudioLoader.kw_sample_rate kw =? 0) eqn:E;
    [apply Z.eqb_eq in E; lia|].
  cbn [Py.bind] in Hpost. fold n in Hpost.
  injection Hpost as Hout. subst out.
  match goal with
  | |- context [AudioLoader.copy_metadata ?i ?s] =>
      set (p := s); destruct (copy_metadata_keeps i p) as [Ha [Hc Hr]]
  end.
  assert (Hl : signal_length (AudioLoader.copy_metadata audio_info p)
               = signal_length p)
    by (unfold signal_length; now rewrite Ha).
  rewrite Ha, Hc, Hr, Hl. subst p.
  destruct (Qltb _ _) eqn:Hlt.
  - destruct (zero_pad_to_spec HB r n) as [Hpa [Hpc Hpr]].
    rewrite Hpc, Hpr. split; [exact Hrate|]. split; [reflexivity|].
    split; [exact Hpa|].
    unfold signal_length, Py.len. rewrite Hpa, length_app, repeat_length.
    unfold signal_length, Py.len. lia.
  - apply Qltb_false_le in Hlt.
    assert (Hn : n <= signal_length r).
    { apply int_le_bound; [unfold signal_length, Py.len; lia|].
      apply Qmult_le_compat_r with (z := inject_Z (AudioLoader.kw_sample_rate kw)) in Hlt.
      - eapply Qle_trans; [exact Hlt|].
        unfold Qdiv. rewrite <- Qmult_assoc.
        rewrite (Qmult_comm (/ _)), Qmult_inv_r, Qmult_1_r; [apply Qle_refl|].
        unfold Qeq. simpl. lia.
      - unfold Qle. simpl. lia. }
    replace (Z.to_nat (n - signal_length r)) with O by lia.
    simpl. rewrite app_nil_r. repeat split; try assumption.
Qed.

End SignalFacts.

Section CallFacts.
Context `{B : Backend}.

(** What a returning [__call__] went through. *)
Lemma call_returns (self : AudioLoader.t) (kw : AudioLoader.Kwargs)
    (state state' : RandomState) (w w' : World) (sample : AudioLoader.Sample) :
  AudioLoader.call self kw state w = (Py.Ok sample, state', w') ->
  exists audio_info st1 w1 decoded st2 w2,
    AudioLoader.resolve self kw state w
      = (Py.Ok (audio_info, AudioLoader.source_idx sample,
                AudioLoader.item_idx sample), st1, w1)
    /\ AudioLoader.decode kw (path audio_info)
         (zeros (AudioLoader.kw_duration kw) (AudioLoader.kw_sample_rate kw)
            (AudioLoader.kw_num_channels kw)) st1 w1
       = (Py.Ok decoded, st2, w2)
    /\ AudioLoader.postprocess kw audio_info decoded
       = Py.Ok (AudioLoader.signal sample)
    /\ Py.getitem (AudioLoader.sources self) (AudioLoader.source_idx sample)
       = Py.Ok (AudioLoader.source sample)
    /\ AudioLoader.sample_path sample = path audio_info.
Proof.
  unfold AudioLoader.call, ebind, lift. intros H.
  destruct (AudioLoader.resolve self kw state w) as [[r st1] w1] eqn:Er.
  destruct r as [[[audio_info s] i]|e]; [|discriminate].
  destruct (AudioLoader.decode kw (path audio_info) _ st1 w1)
    as [[d st2] w2] eqn:Ed.
  destruct d as [decoded|e]; [|discriminate].
  destruct (AudioLoader.postprocess kw audio_info decoded) as [sig|e] eqn:Ep;
    [|discriminate].
  destruct (Py.getitem (AudioLoader.sources self) s) as [src|e] eqn:Es;
    [|discriminate].
  exists audio_info, st1, w1, decoded, st2, w2.
  destruct (AudioLoader.transform self) as [tfm|].
  - unfold draw, ret in H. destruct (instantiate tfm st2 sig) as [args st3].
    inversion H; subst. simpl. auto.
  - unfold ret in H. inversion H; subst. simpl. auto.
Qed.

Lemma decode_sentinel (kw : AudioLoader.Kwargs) (signal : AudioSignal)
    (state : RandomState) (w : World) :
  AudioLoader.decode kw "none" signal state w = (Py.Ok signal, state, w).
Proof. reflexivity. Qed.

End CallFacts.


Lemma toy_backend_laws : @BackendLaws Toy.backend.
Proof.
  constructor; simpl.
  - intros d sr n. auto.
  - intros s H. unfold Toy.keep_first. rewrite H. simpl. auto.
  - intros s r. unfold Toy.relabel.
    destruct (sample_rate s =? r) eqn:E; [now apply Z.eqb_eq in E | reflexivity].
  - intros s. unfold Toy.relabel. rewrite Z.eqb_refl. auto.
  - intros s n. unfold Toy.pad. simpl. auto.
Qed.



(** ** AudioLoader: explicit indices out of range *)

Section ExplicitFacts.
Context `{B : Backend}.

(** An explicit pair that the catalogs do not hold resolves to the
    sentinel. *)
Lemma resolve_out_of_range (self : AudioLoader.t) (kw : AudioLoader.Kwargs)
    (source_idx item_idx : Z) (e : Py.Exn) (state : RandomState) (w : World) :
  AudioLoader.kw_source_idx kw = Some source_idx ->
  AudioLoader.kw_item_idx kw = Some item_idx ->
  (l <- Py.getitem (AudioLoader.audio_lists self) source_idx ;;
   Py.getitem l item_idx) = Py.Raise e ->
  AudioLoader.resolve self kw state w
  = (Py.Ok (sentinel, source_idx, item_idx), state, w).
Proof.
  intros Hs Hi Hlookup. unfold AudioLoader.resolve.
  rewrite Hs, Hi, Hlookup. reflexivity.
Qed.

(** With the source in range, the call goes on to return a sample of the
    sentinel. *)
Lemma call_item_out_of_range (self : AudioLoader.t) (kw : AudioLoader.Kwargs)
    (source_idx item_idx : Z) (e : Py.Exn) (src : string)
    (state : RandomState) (w : World) :
  AudioLoader.kw_source_idx kw = Some source_idx ->
  AudioLoader.kw_item_idx kw = Some item_idx ->
  (l <- Py.getitem (AudioLoader.audio_lists self) source_idx ;;
   Py.getitem l item_idx) = Py.Raise e ->
  AudioLoader.kw_sample_rate kw <> 0 ->
  sample_rate (AudioLoader.resampled kw
                 (zeros (AudioLoader.kw_duration kw)
                    (AudioLoader.kw_sample_rate kw)
                    (AudioLoader.kw_num_channels kw)))
  = AudioLoader.kw_sample_rate kw ->
  Py.getitem (AudioLoader.sources self) source_idx = Py.Ok src ->
  exists sample state',
    AudioLoader.call self kw state w = (Py.Ok sample, state', w)
    /\ AudioLoader.sample_path sample = "none"
    /\ AudioLoader.source_idx sample = source_idx
    /\ AudioLoader.item_idx sample = item_idx.
Proof.
  intros Hs Hi Hlookup Hsr Hrate Hsrc.
  unfold AudioLoader.call, ebind.
  rewrite (resolve_out_of_range self kw state w Hs Hi Hlookup).
  cbn [path sentinel]. rewrite decode_sentinel.
  unfold lift, AudioLoader.postprocess, signal_duration.
  rewrite Hrate. apply Z.eqb_neq in Hsr. rewrite Hsr. cbn [Py.bind].
  rewrite Hsrc.
  destruct (AudioLoader.transform self) as [tfm|].
  - unfold draw, ret.
    match goal with
    | |- context [instantiate tfm state ?s] =>
        destruct (instantiate tfm state s) as [args st'] eqn:Ei
    end.
    eexists _, _. split; [reflexivity|]. simpl. auto.
  - unfold ret. eexists _, _. split; [reflexivity|]. simpl. auto.
Qed.

End ExplicitFacts.

(** C6: a loader over one source with one item, called with the explicit
    pair [(source_idx, item_idx) = (1, 0)], which is out of range of the
    catalogs: the lookup falls back to the sentinel, and the call then
    raises [IndexError] at [self.sources[source_idx]] instead of returning
    a silent sample. *)
Theorem call_source_out_of_range_raises :
  fst (fst (AudioLoader.resolve Toy.loader
              (Toy.kwargs VNone (Some 1) (Some 0) None) 0 Toy.world))
  = Py.Ok (sentinel, 1, 0)
  /\ fst (fst (AudioLoader.call Toy.loader
                 (Toy.kwargs VNone (Some 1) (Some 0) None) 0 Toy.world))
     = Py.Raise Py.index_error.
Proof.
  split; vm_compute; reflexivity.
Qed.

(** ** Decode failures *)




(** ** Determinism *)

Section Determinism.
Context `{B : Backend}.













End Determinism.


(** ** AudioDataset: aligned tracks *)

Lemma dict_get_set_same {V} (d : Dict V) (k : string) (v : V) :
  dict_get (dict_set d k v) k = Py.Ok v.
Proof.
  induction d as [|[k' v'] d IH]; simpl.
  - now rewrite String.eqb_refl.
  - destruct (String.eqb k' k) eqn:E; simpl.
    + now rewrite String.eqb_refl.
    + now rewrite E.
Qed.

Lemma dict_get_set_other {V} (d : Dict V) (k k' : string) (v : V) :
  k <> k' -> dict_get (dict_set d k v) k' = dict_get d k'.
Proof.
  intros Hne. induction d as [|[k0 v0] d IH]; simpl.
  - apply String.eqb_neq in Hne. now rewrite Hne.
  - destruct (String.eqb k0 k) eqn:E; simpl.
    + apply String.eqb_eq in E. subst k0.
      apply String.eqb_neq in Hne. now rewrite Hne.
    + destruct (String.eqb k0 k'); [reflexivity | exact IH].
Qed.

Section AlignedFacts.
Context `{B : Backend}.

Lemma ebind_ok {A C} (m : Eff A) (k : A -> Eff C)
    (state state' : RandomState) (w w' : World) (c : C) :
  ebind m k state w = (Py.Ok c, state', w') ->
  exists a st1 w1,
    m state w = (Py.Ok a, st1, w1) /\ k a st1 w1 = (Py.Ok c, state', w').
Proof.
  unfold ebind. destruct (m state w) as [[[a|e] st1] w1]; [|discriminate].
  intros H. eauto.
Qed.

Lemma lift_ok {A} (r : Py.Res A) (state state' : RandomState) (w w' : World)
    (a : A) :
  lift r state w = (Py.Ok a, state', w') -> r = Py.Ok a /\ state' = state /\ w' = w.
Proof. unfold lift. intros H. inversion H. auto. Qed.

Lemma ret_ok {A} (a a' : A) (state state' : RandomState) (w w' : World) :
  ret a state w = (Py.Ok a', state', w') -> a' = a /\ state' = state /\ w' = w.
Proof. unfold ret. intros H. inversion H. auto. Qed.






End AlignedFacts.





(** * Further properties *)

(** ** ConcatDataset over members of one length *)

Lemma sum_of_equal_lengths {Dataset} (member_len : Dataset -> Z)
    (datasets : list Dataset) (n : Z) :
  Forall (fun d => member_len d = n) datasets ->
  fold_right Z.add 0 (map member_len datasets) = Py.len datasets * n.
Proof.
  unfold Py.len. induction datasets as [|d ds IH]; intros H.
  - reflexivity.
  - inversion H; subst. simpl map. simpl fold_right. rewrite IH by assumption.
    simpl List.length. lia.
Qed.

(** When all members report the same length [n], [ConcatDataset] is a
    one-to-one interleaving: every [idx] in [0 .. len-1] is sent to an
    inner index within its member, every position [q < n] of every member
    [j] is reached from [idx = q * k + j], and two indices routed alike
    are equal. *)
Theorem ConcatDataset_equal_lengths_one_to_one
    (Dataset Item : Type) (member_len : Dataset -> Z)
    (member_getitem : Dataset -> Z -> Py.Res Item)
    (datasets : list Dataset) (n : Z)
    (Hne : datasets <> [])
    (Heq : Forall (fun d => member_len d = n) datasets) :
  let k := Py.len datasets in
  ConcatDataset.len member_len datasets = k * n
  /\ (forall idx,
        0 <= idx < ConcatDataset.len member_len datasets ->
        exists dataset,
          nth_error datasets (Z.to_nat (idx mod k)) = Some dataset
          /\ 0 <= idx / k < member_len dataset
          /\ ConcatDataset.getitem member_getitem datasets idx
             = member_getitem dataset (idx / k))
  /\ (forall j dataset q,
        nth_error datasets j = Some dataset ->
        0 <= q < n ->
        0 <= q * k + Z.of_nat j < ConcatDataset.len member_len datasets
        /\ ConcatDataset.getitem member_getitem datasets (q * k + Z.of_nat j)
           = member_getitem dataset q)
  /\ (forall idx idx',
        idx mod k = idx' mod k -> idx / k = idx' / k -> idx = idx').
Proof.
  intros k. pose proof (concat_len_pos Hne) as Hk. fold k in Hk.
  assert (Hlen : ConcatDataset.len member_len datasets = k * n).
  { unfold ConcatDataset.len. rewrite sum_fold_right.
    now apply sum_of_equal_lengths. }
  split; [exact Hlen|]. split; [|split].
  - intros idx Hidx. rewrite Hlen in Hidx.
    destruct (@concat_getitem_routes _ _ member_getitem datasets idx Hne)
      as [d [Hn Hg]].
    fold k in Hn, Hg. exists d. split; [exact Hn|]. split; [|exact Hg].
    rewrite Forall_forall in Heq. rewrite (Heq d (nth_error_In _ _ Hn)).
    split; [apply Z.div_pos; lia | apply Z.div_lt_upper_bound; lia].
  - intros j d q Hn Hq.
    assert (Hj : Z.of_nat j < k).
    { unfold k, Py.len. apply Nat2Z.inj_lt. apply nth_error_Some. congruence. }
    rewrite Hlen. split; [nia|].
    destruct (@concat_getitem_routes _ _ member_getitem datasets
                (q * k + Z.of_nat j) Hne) as [d' [Hn' Hg]].
    fold k in Hn', Hg.
    assert (Hmod : (q * k + Z.of_nat j) mod k = Z.of_nat j).
    { rewrite Z.add_comm, Z.mod_add by lia. apply Z.mod_small. lia. }
    assert (Hdiv : (q * k + Z.of_nat j) / k = q).
    { rewrite Z.add_comm, Z.div_add by lia. rewrite Z.div_small by lia. lia. }
    rewrite Hmod, Nat2Z.id in Hn'. rewrite Hdiv in Hg. congruence.
  - intros idx idx' Hm Hd.
    rewrite (Z.div_mod idx k), (Z.div_mod idx' k) by lia. congruence.
Qed.

Lemma ConcatDataset_equal_lengths_one_to_one_witness :
  ConcatDataset.len Toy.probe_len [(0%nat, 2); (1%nat, 2); (2%nat, 2)] = 6
  /\ ConcatDataset.getitem Toy.probe_getitem
       [(0%nat, 2); (1%nat, 2); (2%nat, 2)] (1 * 3 + 2)
     = Py.Ok (2%nat, 1).
Proof.
  destruct (@ConcatDataset_equal_lengths_one_to_one _ _ Toy.probe_len
              Toy.probe_getitem [(0%nat, 2); (1%nat, 2); (2%nat, 2)] 2
              ltac:(discriminate) ltac:(repeat constructor))
    as [Hlen [_ [Hreach _]]].
  split; [exact Hlen|].
  exact (proj2 (Hreach 2%nat (2%nat, 2) 1 eq_refl ltac:(lia))).
Defined.

(** ** AudioLoader: what a call reports *)

Lemma bind_ok {A C} (m : Py.Res A) (k : A -> Py.Res C) (c : C) :
  Py.bind m k = Py.Ok c -> exists a, m = Py.Ok a /\ k a = Py.Ok c.
Proof. destruct m as [a|e]; simpl; [eauto | discriminate]. Qed.

Lemma getitem_out_of_range {A} (l : list A) (i : Z) :
  Py.len l <= i \/ i < - Py.len l -> Py.getitem l i = Py.Raise Py.index_error.
Proof.
  unfold Py.len, Py.getitem. intros H.
  destruct (i <? 0) eqn:Hneg.
  - apply Z.ltb_lt in Hneg.
    destruct (0 <=? i + Z.of_nat (List.length l)) eqn:H0; [|reflexivity].
    apply Z.leb_le in H0. lia.
  - apply Z.ltb_ge in Hneg.
    destruct (0 <=? i) eqn:H0; [|reflexivity].
    destruct (i <? Z.of_nat (List.length l)) eqn:H1; [|reflexivity].
    apply Z.ltb_lt in H1. lia.
Qed.

(** A call by [global_idx] that returns reports the pair stored at
    [global_idx % len(audio_indices)], the path of the catalog item at that
    pair, and the source of that index. *)
Theorem call_global_idx_reports `{B : Backend}
    (self : AudioLoader.t) (kw : AudioLoader.Kwargs) (g : Z)
    (state state' : RandomState) (w w' : World) (sample : AudioLoader.Sample)
    (Hexplicit : AudioLoader.kw_source_idx kw = None
                 \/ AudioLoader.kw_item_idx kw = None)
    (Hg : AudioLoader.kw_global_idx kw = Some g)
    (Hcall : AudioLoader.call self kw state w = (Py.Ok sample, state', w')) :
  let N := Py.len (AudioLoader.audio_indices self) in
  N <> 0
  /\ Py.getitem (AudioLoader.audio_indices self) (g mod N)
     = Py.Ok (AudioLoader.source_idx sample, AudioLoader.item_idx sample)
  /\ (exists l audio_info,
        Py.getitem (AudioLoader.audio_lists self) (AudioLoader.source_idx sample)
        = Py.Ok l
        /\ Py.getitem l (AudioLoader.item_idx sample) = Py.Ok audio_info
        /\ AudioLoader.sample_path sample = path audio_info)
  /\ Py.getitem (AudioLoader.sources self) (AudioLoader.source_idx sample)
     = Py.Ok (AudioLoader.source sample).
Proof.
  intros N.
  destruct (call_returns _ _ _ _ Hcall)
    as [info [st1 [w1 [dec [st2 [w2 [Hres [_ [_ [Hsrc Hpath]]]]]]]]]].
  rewrite (resolve_global self kw Hexplicit Hg) in Hres.
  unfold lift in Hres. injection Hres as Hres _ _. fold N in Hres.
  apply bind_ok in Hres. destruct Hres as [k [Hk Hres]].
  unfold Py.mod_ in Hk. destruct (N =? 0) eqn:E; [discriminate|].
  injection Hk as <-. apply Z.eqb_neq in E.
  apply bind_ok in Hres. destruct Hres as [[s i] [Hsi Hres]].
  apply bind_ok in Hres. destruct Hres as [l [Hl Hres]].
  apply bind_ok in Hres. destruct Hres as [info' [Hinfo Hres]].
  simpl fst in *. simpl snd in *. injection Hres as -> Hs Hi.
  rewrite <- Hs, <- Hi.
  split; [exact E|]. split; [exact Hsi|]. split; [|now rewrite <- Hs in Hsrc].
  exists l, info. auto.
Qed.

Lemma call_global_idx_reports_witness :
  exists sample,
    fst (fst (AudioLoader.call Toy.bad_loader
                (Toy.kwargs VNone None None (Some 5)) 0 Toy.world))
    = Py.Ok sample
    /\ Py.getitem (AudioLoader.audio_indices Toy.bad_loader) (5 mod 4)
       = Py.Ok (AudioLoader.source_idx sample, AudioLoader.item_idx sample)
    /\ AudioLoader.sample_path sample = "bad/empty.wav".
Proof.
  eexists. split; [vm_compute; reflexivity|].
  match goal with
  | |- context [AudioLoader.source_idx ?s] =>
      destruct (@call_global_idx_reports Toy.backend Toy.bad_loader
                  (Toy.kwargs VNone None None (Some 5)) 5 0 1 Toy.world
                  (mkWorld ["Error loading audio at bad/empty.wav. Skipping..."]
                     [("bad/empty.wav" ++ String "010"%char EmptyString)%string])
                  s (or_introl eq_refl) eq_refl eq_refl)
        as [_ [Hpair _]]
  end.
  split; [exact Hpair | reflexivity].
Defined.

(** ** AudioLoader: explicit indices *)

Section ExplicitIndexFacts.
Context `{B : Backend}.

Lemma postprocess_returns (HB : BackendLaws) (kw : AudioLoader.Kwargs)
    (audio_info : Item) (signal : AudioSignal) :
  AudioLoader.kw_sample_rate kw <> 0 ->
  exists out, AudioLoader.postprocess kw audio_info signal = Py.Ok out.
Proof.
  intros Hsr. unfold AudioLoader.postprocess, signal_duration.
  unfold AudioLoader.resampled at 1. rewrite (resample_rate HB).
  apply Z.eqb_neq in Hsr. rewrite Hsr. cbn [Py.bind]. eauto.
Qed.

Lemma postprocess_of_zeros (HB : BackendLaws) (kw : AudioLoader.Kwargs)
    (audio_info : Item) (out : AudioSignal) :
  0 < AudioLoader.kw_sample_rate kw ->
  (0 <= AudioLoader.kw_duration kw)%Q ->
  AudioLoader.postprocess kw audio_info
    (zeros (AudioLoader.kw_duration kw) (AudioLoader.kw_sample_rate kw)
       (AudioLoader.kw_num_channels kw)) = Py.Ok out ->
  audio_data out
  = repeat (silence (AudioLoader.kw_num_channels kw))
      (Z.to_nat (round_ (AudioLoader.kw_duration kw
                         * inject_Z (AudioLoader.kw_sample_rate kw)))).
Proof.
  intros Hsr Hd Hpost.
  destruct (@postprocess_pads _ HB kw audio_info _ _ Hsr Hpost)
    as [_ [_ [Ha _]]].
  set (sr := AudioLoader.kw_sample_rate kw) in *.
  set (d := AudioLoader.kw_duration kw) in *.
  set (nch := AudioLoader.kw_num_channels kw) in *.
  destruct (zeros_spec HB d sr nch) as [Hza [Hzc Hzr]].
  set (z := zeros d sr nch) in *.
  assert (Hx : (0 <= d * inject_Z sr)%Q).
  { apply Qmult_le_0_compat; [exact Hd|]. unfold Qle. simpl. lia. }
  assert (Hm : audio_data (if nch =? 1 then to_mono z else z) = audio_data z
               /\ sample_rate (if nch =? 1 then to_mono z else z) = sr).
  { destruct (nch =? 1) eqn:E; [|auto]. apply Z.eqb_eq in E.
    destruct (to_mono_mono HB z) as [H1 [_ H3]]; [congruence|].
    split; congruence. }
  destruct Hm as [Hma Hmr].
  assert (Hra : audio_data (AudioLoader.resampled kw z) = audio_data z).
  { unfold AudioLoader.resampled. fold sr nch. rewrite <- Hmr.
    destruct (resample_same HB (if nch =? 1 then to_mono z else z)) as [H1 _].
    congruence. }
  assert (Hlen : signal_length (AudioLoader.resampled kw z)
                 = round_ (d * inject_Z sr)).
  { unfold signal_length, Py.len. rewrite Hra, Hza, repeat_length.
    apply Z2Nat.id. now apply round_nonneg. }
  rewrite Hlen in Ha. pose proof (int_le_round Hx) as Hle.
  replace (Z.to_nat (int_ (d * inject_Z sr) - round_ (d * inject_Z sr)))
    with O in Ha by lia.
  simpl in Ha. now rewrite app_nil_r, Hra, Hza in Ha.
Qed.

End ExplicitIndexFacts.

(** An explicit pair whose [source_idx] is within the catalogs and the
    sources but whose [item_idx] is out of range of that catalog is
    sampled into silence: the call returns, reports the indices as given
    and the path ["none"], holds [round(duration * sample_rate)] zero
    frames, and writes nothing. *)
Theorem call_explicit_item_out_of_range `{B : Backend} (HB : BackendLaws)
    (self : AudioLoader.t) (kw : AudioLoader.Kwargs)
    (s i : Z) (l : list Item) (src : string)
    (state : RandomState) (w : World)
    (Hs : AudioLoader.kw_source_idx kw = Some s)
    (Hi : AudioLoader.kw_item_idx kw = Some i)
    (Hl : Py.getitem (AudioLoader.audio_lists self) s = Py.Ok l)
    (Hout : Py.len l <= i \/ i < - Py.len l)
    (Hsrc : Py.getitem (AudioLoader.sources self) s = Py.Ok src)
    (Hrate : 0 < AudioLoader.kw_sample_rate kw)
    (Hduration : (0 <= AudioLoader.kw_duration kw)%Q) :
  exists sample state',
    AudioLoader.call self kw state w = (Py.Ok sample, state', w)
    /\ AudioLoader.sample_path sample = "none"
    /\ AudioLoader.source_idx sample = s
    /\ AudioLoader.item_idx sample = i
    /\ AudioLoader.source sample = src
    /\ audio_data (AudioLoader.signal sample)
       = repeat (silence (AudioLoader.kw_num_channels kw))
           (Z.to_nat (round_ (AudioLoader.kw_duration kw
                              * inject_Z (AudioLoader.kw_sample_rate kw)))).
Proof.
  assert (Hlookup : (l0 <- Py.getitem (AudioLoader.audio_lists self) s ;;
                     Py.getitem l0 i) = Py.Raise Py.index_error).
  { rewrite Hl. simpl. now apply getitem_out_of_range. }
  destruct (@call_item_out_of_range _ self kw s i Py.index_error src state w
              Hs Hi Hlookup ltac:(lia)
              ltac:(unfold AudioLoader.resampled; apply (resample_rate HB))
              Hsrc)
    as [sample [state' [Hcall [Hp [Hsi Hii]]]]].
  exists sample, state'. split; [exact Hcall|].
  destruct (call_returns _ _ _ _ Hcall)
    as [info [st1 [w1 [dec [st2 [w2 [Hres [Hdec [Hpost [Hsrc' Hpath]]]]]]]]]].
  rewrite (resolve_out_of_range self kw state w Hs Hi Hlookup) in Hres.
  assert (Hinfo : info = sentinel) by congruence. subst info.
  cbn [path sentinel] in Hdec. rewrite decode_sentinel in Hdec.
  assert (Hzeros : dec = zeros (AudioLoader.kw_duration kw)
                           (AudioLoader.kw_sample_rate kw)
                           (AudioLoader.kw_num_channels kw)) by congruence.
  subst dec. rewrite Hsi in Hsrc'.
  repeat split; try assumption; try congruence.
  exact (postprocess_of_zeros HB kw sentinel Hrate Hduration Hpost).
Qed.

Lemma call_explicit_item_out_of_range_witness :
  exists sample state',
    AudioLoader.call Toy.loader (Toy.kwargs VNone (Some 0) (Some 1) None)
      0 Toy.world
    = (Py.Ok sample, state', Toy.world)
    /\ AudioLoader.sample_path sample = "none"
    /\ audio_data (AudioLoader.signal sample) = [[0%Q]; [0%Q]].
Proof.
  destruct (@call_explicit_item_out_of_range Toy.backend toy_backend_laws
              Toy.loader (Toy.kwargs VNone (Some 0) (Some 1) None) 0 1
              [mkItem "a/1.wav" []] "a" 0 Toy.world
              eq_refl eq_refl eq_refl ltac:(left; vm_compute; discriminate)
              eq_refl ltac:(reflexivity) ltac:(discriminate))
    as [sample [state' [Hcall [Hp [_ [_ [_ Hdata]]]]]]].
  exists sample, state'. split; [exact Hcall|]. split; [exact Hp | exact Hdata].
Defined.

(** When the loader has one catalog per source, an explicit [source_idx]
    out of range of them makes the call raise [IndexError]: the lookup
    falls back to the sentinel, and [self.sources[source_idx]] then fails.
    Nothing is drawn or written before. *)
Theorem call_explicit_source_out_of_range `{B : Backend} (HB : BackendLaws)
    (self : AudioLoader.t) (kw : AudioLoader.Kwargs) (s i : Z)
    (state : RandomState) (w : World)
    (Hlen : List.length (AudioLoader.sources self)
            = List.length (AudioLoader.audio_lists self))
    (Hs : AudioLoader.kw_source_idx kw = Some s)
    (Hi : AudioLoader.kw_item_idx kw = Some i)
    (Hout : Py.len (AudioLoader.audio_lists self) <= s
            \/ s < - Py.len (AudioLoader.audio_lists self))
    (Hrate : AudioLoader.kw_sample_rate kw <> 0) :
  AudioLoader.resolve self kw state w = (Py.Ok (sentinel, s, i), state, w)
  /\ AudioLoader.call self kw state w = (Py.Raise Py.index_error, state, w).
Proof.
  assert (Hlookup : (l0 <- Py.getitem (AudioLoader.audio_lists self) s ;;
                     Py.getitem l0 i) = Py.Raise Py.index_error).
  { rewrite (getitem_out_of_range _ Hout). reflexivity. }
  pose proof (resolve_out_of_range self kw state w Hs Hi Hlookup) as Hres.
  split; [exact Hres|].
  unfold AudioLoader.call, ebind. rewrite Hres.
  cbn [path sentinel]. rewrite decode_sentinel. unfold lift.
  destruct (postprocess_returns HB kw sentinel
              (zeros (AudioLoader.kw_duration kw)
                 (AudioLoader.kw_sample_rate kw)
                 (AudioLoader.kw_num_channels kw)) Hrate) as [out Hpost].
  rewrite Hpost.
  rewrite getitem_out_of_range; [reflexivity|].
  unfold Py.len in *. rewrite Hlen. exact Hout.
Qed.

Lemma call_explicit_source_out_of_range_witness :
  AudioLoader.call Toy.bad_loader (Toy.kwargs VNone (Some (-2)) (Some 0) None)
    0 Toy.world
  = (Py.Raise Py.index_error, 0, Toy.world).
Proof.
  exact (proj2 (@call_explicit_source_out_of_range Toy.backend
                  toy_backend_laws Toy.bad_loader
                  (Toy.kwargs VNone (Some (-2)) (Some 0) None) (-2) 0 0
                  Toy.world eq_refl eq_refl eq_refl
                  ltac:(right; vm_compute; reflexivity)
                  ltac:(discriminate))).
Defined.

(** ** AudioLoader: the metadata of the sampled signal *)

Lemma dict_set_keys_fresh {V} (d : Dict V) (k : string) (v : V) :
  ~ In k (map fst d) -> dict_set d k v = d ++ [(k, v)].
Proof.
  induction d as [|[k' v'] d IH]; simpl; intros H; [reflexivity|].
  destruct (String.eqb k' k) eqn:E.
  - apply String.eqb_eq in E. tauto.
  - rewrite IH by tauto. reflexivity.
Qed.

Section MetadataFacts.
Context `{B : Backend}.

Lemma set_all_lookup (kvs : list (string * Value)) :
  forall (s : AudioSignal) (k : string),
    let s' := fold_left
                (fun s kv => mkSignal (audio_data s) (num_channels s)
                               (sample_rate s)
                               (dict_set (metadata s) (fst kv) (snd kv)))
                kvs s in
    (~ In k (map fst kvs) -> dict_get (metadata s') k = dict_get (metadata s) k)
    /\ (forall v, NoDup (map fst kvs) -> In (k, v) kvs ->
                  dict_get (metadata s') k = Py.Ok v).
Proof.
  induction kvs as [|[k0 v0] kvs IH]; intros s k; cbv zeta; simpl.
  - split; [reflexivity | intros v _ []].
  - set (s1 := mkSignal (audio_data s) (num_channels s) (sample_rate s)
                 (dict_set (metadata s) k0 v0)).
    destruct (IH s1 k) as [Hother Hin]. cbv zeta in Hother, Hin. split.
    + intros Hk. rewrite Hother by tauto. simpl.
      apply dict_get_set_other. tauto.
    + intros v Hnd [Heq|Hkv].
      * injection Heq as -> ->. inversion Hnd; subst.
        rewrite Hother by assumption. simpl. apply dict_get_set_same.
      * inversion Hnd; subst. now apply Hin.
Qed.

End MetadataFacts.

(** Every field of the sampled catalog item, its path included, can be
    read from the metadata of the returned signal, and a metadata key that
    is no field of the item keeps the value the decoded and padded signal
    had for it. *)
Theorem call_copies_catalog_fields `{B : Backend}
    (self : AudioLoader.t) (kw : AudioLoader.Kwargs)
    (state state' : RandomState) (w w' : World) (sample : AudioLoader.Sample)
    (Hcall : AudioLoader.call self kw state w = (Py.Ok sample, state', w')) :
  exists audio_info padded,
    fst (fst (AudioLoader.resolve self kw state w))
    = Py.Ok (audio_info, AudioLoader.source_idx sample,
             AudioLoader.item_idx sample)
    /\ path audio_info = AudioLoader.sample_path sample
    /\ AudioLoader.signal sample = AudioLoader.copy_metadata audio_info padded
    /\ (NoDup (map fst (items audio_info)) ->
        forall k v, In (k, v) (items audio_info) ->
                    dict_get (metadata (AudioLoader.signal sample)) k = Py.Ok v)
    /\ (NoDup (map fst (items audio_info)) ->
        dict_get (metadata (AudioLoader.signal sample)) "path"
        = Py.Ok (VStr (AudioLoader.sample_path sample)))
    /\ (forall k, ~ In k (map fst (items audio_info)) ->
                  dict_get (metadata (AudioLoader.signal sample)) k
                  = dict_get (metadata padded) k).
Proof.
  destruct (call_returns _ _ _ _ Hcall)
    as [info [st1 [w1 [dec [st2 [w2 [Hres [_ [Hpost [_ Hpath]]]]]]]]]].
  unfold AudioLoader.postprocess in Hpost.
  apply bind_ok in Hpost. destruct Hpost as [d [_ Hpost]].
  injection Hpost as Hpost.
  match type of Hpost with
  | AudioLoader.copy_metadata _ ?p = _ => exists info, p
  end.
  split; [now rewrite Hres|].
  split; [now rewrite Hpath|]. split; [now rewrite Hpost|].
  rewrite <- Hpost. unfold AudioLoader.copy_metadata.
  split; [|split].
  - intros Hnd k v Hin.
    exact (proj2 (set_all_lookup (items info) _ k) v Hnd Hin).
  - intros Hnd. rewrite Hpath.
    apply (proj2 (set_all_lookup (items info) _ "path") _ Hnd).
    left. reflexivity.
  - intros k Hk. exact (proj1 (set_all_lookup (items info) _ k) Hk).
Qed.

Lemma call_copies_catalog_fields_witness :
  exists sample,
    fst (fst (AudioLoader.call Toy.loader
                (Toy.kwargs VNone None None (Some 0)) 0 Toy.world))
    = Py.Ok sample
    /\ dict_get (metadata (AudioLoader.signal sample)) "path"
       = Py.Ok (VStr "a/1.wav")
    /\ dict_get (metadata (AudioLoader.signal sample)) "offset"
       = Py.Ok (VNum 0).
Proof.
  eexists. split; [vm_compute; reflexivity|].
  match goal with
  | |- context [AudioLoader.signal ?s] =>
      destruct (@call_copies_catalog_fields Toy.backend Toy.loader
                  (Toy.kwargs VNone None None (Some 0)) 0 1
                  Toy.world Toy.world s eq_refl)
        as [info [padded [Hres [_ [_ [_ [Hpath _]]]]]]]
  end.
  split; [|reflexivity].
  vm_compute in Hres. injection Hres as <-.
  apply Hpath. repeat constructor. intros [].
Defined.

(** ** AudioLoader: what a call writes *)

Section WorldFacts.
Context `{B : Backend}.

Lemma ebind_world_kept {A C} (m : Eff A) (k : A -> Eff C) :
  (forall st w, snd (m st w) = w) ->
  (forall a st w, snd (k a st w) = w) ->
  forall st w, snd (ebind m k st w) = w.
Proof.
  intros Hm Hk st w. unfold ebind. specialize (Hm st w).
  destruct (m st w) as [[[a|e] st1] w1]; simpl in Hm; subst; [apply Hk|reflexivity].
Qed.

Lemma ebind_world_before {A C} (P : World -> World -> Prop)
    (m : Eff A) (k : A -> Eff C) :
  (forall st w, snd (m st w) = w) ->
  (forall a st w, P w (snd (k a st w))) ->
  (forall w, P w w) ->
  forall st w, P w (snd (ebind m k st w)).
Proof.
  intros Hm Hk Hrefl st w. unfold ebind. specialize (Hm st w).
  destruct (m st w) as [[[a|e] st1] w1]; simpl in Hm; subst;
    [apply Hk | apply Hrefl].
Qed.

Lemma ebind_world_after {A C} (P : World -> World -> Prop)
    (m : Eff A) (k : A -> Eff C) :
  (forall st w, P w (snd (m st w))) ->
  (forall a st w, snd (k a st w) = w) ->
  forall st w, P w (snd (ebind m k st w)).
Proof.
  intros Hm Hk st w. unfold ebind. specialize (Hm st w).
  destruct (m st w) as [[[a|e] st1] w1]; simpl in Hm; [|exact Hm].
  now rewrite Hk.
Qed.

Lemma resolve_world_kept (self : AudioLoader.t) (kw : AudioLoader.Kwargs) :
  forall st w, snd (AudioLoader.resolve self kw st w) = w.
Proof.
  intros st w. unfold AudioLoader.resolve.
  destruct (AudioLoader.kw_source_idx kw) as [s|],
           (AudioLoader.kw_item_idx kw) as [i|];
    try (destruct (AudioLoader.kw_global_idx kw);
         [reflexivity
         | unfold draw_res;
           now destruct (choose_from_list_of_lists st _ _)]).
  now destruct (l <- Py.getitem (AudioLoader.audio_lists self) s ;; Py.getitem l i).
Qed.

End WorldFacts.

(** A call leaves standard output and the diagnostic file as they were,
    or appends one line about one path to standard output and at most that
    path to the diagnostic file; it never removes or rewrites what they
    held. *)
Theorem call_writes_at_most_one_diagnostic `{B : Backend}
    (self : AudioLoader.t) (kw : AudioLoader.Kwargs)
    (state : RandomState) (w : World) :
  let w' := snd (AudioLoader.call self kw state w) in
  w' = w
  \/ exists p,
       stdout w'
       = stdout w ++ [("Error loading audio at " ++ p ++ ". Skipping...")%string]
       /\ (corrupt_txt w' = corrupt_txt w
           \/ corrupt_txt w'
              = corrupt_txt w ++ [(p ++ String "010"%char EmptyString)%string]).
Proof.
  cbv zeta.
  set (P := fun w w' : World =>
              w' = w
              \/ exists p,
                   stdout w'
                   = stdout w ++ [("Error loading audio at " ++ p ++ ". Skipping...")%string]
                   /\ (corrupt_txt w' = corrupt_txt w
                       \/ corrupt_txt w'
                          = corrupt_txt w
                            ++ [(p ++ String "010"%char EmptyString)%string])).
  change (P w (snd (AudioLoader.call self kw state w))).
  unfold AudioLoader.call.
  apply ebind_world_before; [apply resolve_world_kept | | intros; left; reflexivity].
  intros [[info s] i] st1 w1.
  apply ebind_world_after.
  - intros st v. unfold AudioLoader.decode.
    destruct (String.eqb (path info) "none"); [left; reflexivity|].
    destruct (AudioLoader.kw_offset kw); try (left; reflexivity).
    unfold try_except, draw_res.
    destruct (salient_excerpt (path info) _ st _) as [[sig|e] st'];
      [left; reflexivity|].
    destruct (AudioLoader.recovers e); [|left; reflexivity].
    right. exists (path info).
    unfold ebind, print, append_corrupt, ret. cbn [stdout corrupt_txt].
    destruct (encodable _); simpl; auto.
  - intros decoded st v.
    apply ebind_world_kept; [reflexivity|]. intros sig st' v'.
    apply ebind_world_kept; [reflexivity|]. intros src st'' v''.
    destruct (AudioLoader.transform self) as [tfm|]; [|reflexivity].
    apply ebind_world_kept; [|reflexivity].
    intros st3 v3. unfold draw. now destruct (instantiate tfm st3 sig).
Qed.

Section SentinelFacts.
Context `{B : Backend}.

Lemma call_final_state (self : AudioLoader.t) (kw : AudioLoader.Kwargs)
    (state state' : RandomState) (w w' : World) (sample : AudioLoader.Sample) :
  AudioLoader.transform self = None ->
  AudioLoader.call self kw state w = (Py.Ok sample, state', w') ->
  exists audio_info st1 w1 decoded,
    AudioLoader.resolve self kw state w
      = (Py.Ok (audio_info, AudioLoader.source_idx sample,
                AudioLoader.item_idx sample), st1, w1)
    /\ AudioLoader.decode kw (path audio_info)
         (zeros (AudioLoader.kw_duration kw) (AudioLoader.kw_sample_rate kw)
            (AudioLoader.kw_num_channels kw)) st1 w1
       = (Py.Ok decoded, state', w')
    /\ AudioLoader.sample_path sample = path audio_info.
Proof.
  intros Htfm. unfold AudioLoader.call, ebind, lift. rewrite Htfm. intros H.
  destruct (AudioLoader.resolve self kw state w) as [[r st1] w1] eqn:Er.
  destruct r as [[[audio_info s] i]|e]; [|discriminate].
  destruct (AudioLoader.decode kw (path audio_info) _ st1 w1)
    as [[d st2] w2] eqn:Ed.
  destruct d as [decoded|e]; [|discriminate].
  destruct (AudioLoader.postprocess kw audio_info decoded) as [sig|e];
    [|discriminate].
  destruct (Py.getitem (AudioLoader.sources self) s) as [src|e];
    [|discriminate].
  unfold ret in H. inversion H; subst. simpl.
  exists audio_info, st1, w1, decoded. auto.
Qed.

Lemma resolve_by_index_state_kept (self : AudioLoader.t)
    (kw : AudioLoader.Kwargs) (state : RandomState) (w : World) :
  (exists s i, AudioLoader.kw_source_idx kw = Some s
               /\ AudioLoader.kw_item_idx kw = Some i)
  \/ (exists g, AudioLoader.kw_global_idx kw = Some g) ->
  snd (fst (AudioLoader.resolve self kw state w)) = state.
Proof.
  intros H. unfold AudioLoader.resolve.
  destruct (AudioLoader.kw_source_idx kw) as [s|],
           (AudioLoader.kw_item_idx kw) as [i|].
  - now destruct (l <- Py.getitem (AudioLoader.audio_lists self) s ;; Py.getitem l i).
  - destruct H as [[s' [i' [_ H]]]|[g ->]]; [discriminate | reflexivity].
  - destruct H as [[s' [i' [H _]]]|[g ->]]; [discriminate | reflexivity].
  - destruct H as [[s' [i' [H _]]]|[g ->]]; [discriminate | reflexivity].
Qed.

End SentinelFacts.

(** Sampling a sentinel by explicit indices or by [global_idx], with no
    transform on the loader, attempts no decode: the random state is the
    one passed in, and nothing is written. *)
Theorem call_sentinel_draws_nothing `{B : Backend}
    (self : AudioLoader.t) (kw : AudioLoader.Kwargs)
    (state state' : RandomState) (w w' : World) (sample : AudioLoader.Sample)
    (Htransform : AudioLoader.transform self = None)
    (Hmode : (exists s i, AudioLoader.kw_source_idx kw = Some s
                          /\ AudioLoader.kw_item_idx kw = Some i)
             \/ (exists g, AudioLoader.kw_global_idx kw = Some g))
    (Hcall : AudioLoader.call self kw state w = (Py.Ok sample, state', w'))
    (Hsentinel : AudioLoader.sample_path sample = "none") :
  state' = state /\ w' = w.
Proof.
  destruct (call_final_state self kw state w Htransform Hcall)
    as [info [st1 [w1 [dec [Hres [Hdec Hpath]]]]]].
  pose proof (resolve_by_index_state_kept self kw state w Hmode) as Hst.
  pose proof (resolve_world_kept self kw state w) as Hw.
  rewrite Hres in Hst, Hw. simpl in Hst, Hw. subst st1 w1.
  rewrite <- Hpath, Hsentinel, decode_sentinel in Hdec.
  now inversion Hdec.
Qed.

Lemma call_sentinel_draws_nothing_witness :
  exists sample,
    AudioLoader.call Toy.loader (Toy.kwargs VNone (Some 0) (Some 7) None)
      5 Toy.world
    = (Py.Ok sample, 5, Toy.world).
Proof.
  assert (H : exists sample st' w',
             AudioLoader.call Toy.loader
               (Toy.kwargs VNone (Some 0) (Some 7) None) 5 Toy.world
             = (Py.Ok sample, st', w')
             /\ AudioLoader.sample_path sample = "none").
  { eexists _, _, _. split; [vm_compute; reflexivity | reflexivity]. }
  destruct H as [sample [st' [w' [Hcall Hp]]]].
  destruct (@call_sentinel_draws_nothing Toy.backend Toy.loader
              (Toy.kwargs VNone (Some 0) (Some 7) None) 5 st' Toy.world w'
              sample eq_refl
              (or_introl (ex_intro _ 0 (ex_intro _ 7 (conj eq_refl eq_refl))))
              Hcall Hp) as [-> ->].
  exists sample. exact Hcall.
Defined.

(** ** Streaming decode *)

Section StreamFacts.
Context `{B : Backend}.

Lemma decode_loop_app (kw : Stream.Kwargs) (d1 d2 : list (Dict Blob)) :
  forall (state : RandomState) (w : World),
    Stream.decode_loop kw (d1 ++ d2) state w
    = let '(o1, e1, st1, w1) := Stream.decode_loop kw d1 state w in
      match e1 with
      | Some e => (o1, Some e, st1, w1)
      | None =>
          let '(o2, e2, st2, w2) := Stream.decode_loop kw d2 st1 w1 in
          (o1 ++ o2, e2, st2, w2)
      end.
Proof.
  induction d1 as [|sample d1 IH]; intros state w.
  - simpl. now destruct (Stream.decode_loop kw d2 state w) as [[[o2 e2] st2] w2].
  - simpl. destruct (Stream.find_audio sample) as [[key value]|]; [|apply IH].
    destruct (salient_excerpts value _ state _ _ _) as [[signals|e] st'].
    + destruct (Stream.postprocess kw signals) as [padded|e]; [|reflexivity].
      rewrite IH.
      destruct (Stream.decode_loop kw d1 st' w) as [[[o1 e1] st1] w1].
      destruct e1 as [e|]; [reflexivity|].
      destruct (Stream.decode_loop kw d2 st1 w1) as [[[o2 e2] st2] w2].
      now rewrite app_assoc.
    + destruct (Stream.recovers e); [apply IH | reflexivity].
Qed.

Lemma dict_del_get_other (sample : Dict Blob) (key k : string) :
  k <> key -> dict_get (Stream.dict_del sample key) k = dict_get sample k.
Proof.
  intros Hne. unfold Stream.dict_del.
  induction sample as [|[k' v'] sample IH]; simpl; [reflexivity|].
  destruct (String.eqb k' key) eqn:E; simpl.
  - apply String.eqb_eq in E. subst k'.
    assert (Hk : String.eqb key k = false) by (apply String.eqb_neq; congruence).
    now rewrite Hk.
  - destruct (String.eqb k' k); [reflexivity | exact IH].
Qed.

Lemma dict_del_get_same (sample : Dict Blob) (key : string) :
  dict_get (Stream.dict_del sample key) key
  = Py.Raise (Py.mkExn Py.KeyError key).
Proof.
  unfold Stream.dict_del.
  induction sample as [|[k' v'] sample IH]; simpl; [reflexivity|].
  destruct (String.eqb k' key) eqn:E; simpl; [exact IH|].
  now rewrite E.
Qed.

Lemma decode_loop_yields (kw : Stream.Kwargs) (data : list (Dict Blob)) :
  forall (state : RandomState) (w : World) (out : Stream.Out),
    In out (fst (fst (fst (Stream.decode_loop kw data state w)))) ->
    exists sample key value,
      In sample data
      /\ Stream.find_audio sample = Some (key, value)
      /\ Stream.carried out = Stream.dict_del sample key.
Proof.
  induction data as [|sample data IH]; intros state w out Hin; simpl in Hin.
  - contradiction.
  - destruct (Stream.find_audio sample) as [[key value]|] eqn:Ef.
    + destruct (salient_excerpts value _ state _ _ _) as [[signals|e] st'].
      * destruct (Stream.postprocess kw signals) as [padded|e];
          [|contradiction].
        destruct (Stream.decode_loop kw data st' w) as [[[o1 e1] st1] w1] eqn:Er.
        simpl in Hin. apply in_app_or in Hin. destruct Hin as [Hin|Hin].
        -- apply in_map_iff in Hin. destruct Hin as [sig [<- _]].
           exists sample, key, value. simpl. auto.
        -- destruct (IH st' w out) as [s [k [v [Hs H]]]];
             [now rewrite Er|].
           exists s, k, v. simpl. auto.
      * destruct (Stream.recovers e); [|contradiction].
        destruct (IH _ _ out Hin) as [s [k [v [Hs H]]]].
        exists s, k, v. simpl. auto.
    + destruct (IH _ _ out Hin) as [s [k [v [Hs H]]]].
      exists s, k, v. simpl. auto.
Qed.

End StreamFacts.

(** Decoding a stream made of two parts is decoding the first part and, if
    that ended without an exception, decoding the second from the random
    state and the output the first left, the records following in order;
    when the first part ends in an exception the second is never
    touched. *)
Theorem decode_audiosignal_app `{B : Backend}
    (kw : Stream.Kwargs) (d1 d2 : list (Dict Blob))
    (state : RandomState) (w : World) :
  Stream.decode_audiosignal kw (d1 ++ d2) state w
  = let '(o1, e1, st1, w1) := Stream.decode_audiosignal kw d1 state w in
    match e1 with
    | Some e => (o1, Some e, st1, w1)
    | None =>
        let '(o2, e2, st2, w2) := Stream.decode_audiosignal kw d2 st1 w1 in
        (o1 ++ o2, e2, st2, w2)
    end.
Proof.
  unfold Stream.decode_audiosignal.
  destruct (Stream.offset kw); try reflexivity. apply decode_loop_app.
Qed.

(** Every record the streaming decode yields comes from a sample of the
    stream that has an audio entry: it carries that sample's other entries
    unchanged, and the audio entry itself is gone from it. *)
Theorem decode_audiosignal_yields `{B : Backend}
    (kw : Stream.Kwargs) (data : list (Dict Blob))
    (state : RandomState) (w : World) (out : Stream.Out)
    (Hin : In out (fst (fst (fst (Stream.decode_audiosignal kw data state w))))) :
  exists sample key value,
    In sample data
    /\ Stream.find_audio sample = Some (key, value)
    /\ Stream.is_audio key = true
    /\ dict_get (Stream.carried out) key = Py.Raise (Py.mkExn Py.KeyError key)
    /\ forall k, k <> key ->
                 dict_get (Stream.carried out) k = dict_get sample k.
Proof.
  unfold Stream.decode_audiosignal in Hin.
  assert (Hloop : In out (fst (fst (fst (Stream.decode_loop kw data state w))))).
  { destruct (Stream.offset kw); try contradiction. exact Hin. }
  destruct (decode_loop_yields kw data state w out Hloop)
    as [sample [key [value [Hs [Hf Hc]]]]].
  exists sample, key, value. split; [exact Hs|]. split; [exact Hf|].
  split.
  { unfold Stream.find_audio in Hf. apply find_some in Hf. apply Hf. }
  rewrite Hc. split; [apply dict_del_get_same|].
  intros k Hk. now apply dict_del_get_other.
Qed.

Lemma decode_audiosignal_yields_witness :
  exists sample key value,
    In sample [[("note.txt", "hello"); ("x.wav", "good"); ("x.json", "{}")]]
    /\ @Stream.find_audio Toy.backend sample = Some (key, value)
    /\ @Stream.is_audio Toy.backend key = true
    /\ @dict_get string
         [("note.txt", "hello"); ("x.json", "{}")] key
       = Py.Raise (Py.mkExn Py.KeyError key)
    /\ forall k, k <> key ->
         @dict_get string
           [("note.txt", "hello"); ("x.json", "{}")] k
         = dict_get sample k.
Proof.
  exact (@decode_audiosignal_yields Toy.backend Toy.stream_kwargs
           [[("note.txt", "hello"); ("x.wav", "good"); ("x.json", "{}")]]
           0 Toy.world
           (@Stream.mkOut Toy.backend [("note.txt", "hello"); ("x.json", "{}")]
              (Toy.one_frame "good" (VNum 0)))
           ltac:(vm_compute; left; reflexivity)).
Defined.

Section StreamSurvives.
Context `{B : Backend}.

Lemma decode_loop_survives (kw : Stream.Kwargs) (data : list (Dict Blob)) :
  (forall sample key value state,
      In sample data ->
      Stream.find_audio sample = Some (key, value) ->
      match fst (salient_excerpts value (Stream.duration kw) state
                   (Stream.loudness_cutoff kw) (Stream.num_excerpts kw)
                   (Stream.max_excerpts kw)) with
      | Py.Ok _ => True
      | Py.Raise e => Stream.recovers e = true
      end) ->
  (forall signals, exists out, Stream.postprocess kw signals = Py.Ok out) ->
  forall state w,
    snd (fst (fst (Stream.decode_loop kw data state w))) = None.
Proof.
  intros Hdec Hpost. induction data as [|sample data IH]; intros state w.
  - reflexivity.
  - assert (IH' : forall state w,
               snd (fst (fst (Stream.decode_loop kw data state w))) = None).
    { apply IH. intros s k v st Hs. apply Hdec. now right. }
    simpl. destruct (Stream.find_audio sample) as [[key value]|] eqn:Ef;
      [|apply IH'].
    specialize (Hdec sample key value state (or_introl eq_refl) Ef).
    destruct (salient_excerpts value _ state _ _ _) as [[signals|e] st'].
    + destruct (Hpost signals) as [out ->].
      specialize (IH' st' w).
      destruct (Stream.decode_loop kw data st' w) as [[[o1 e1] st1] w1].
      exact IH'.
    + simpl in Hdec. rewrite Hdec. apply IH'.
Qed.

End StreamSurvives.

(** When every audio entry of the stream either decodes or fails with a
    failure the streaming decode recognizes, and the downmix, resample and
    pad step does not raise, the stream is read to its end: no exception
    ends it, however many entries were skipped. *)
Theorem decode_audiosignal_survives `{B : Backend}
    (kw : Stream.Kwargs) (data : list (Dict Blob))
    (state : RandomState) (w : World)
    (Hoffset : Stream.offset kw = VNone)
    (Hdecode : forall sample key value state,
        In sample data ->
        Stream.find_audio sample = Some (key, value) ->
        match fst (salient_excerpts value (Stream.duration kw) state
                     (Stream.loudness_cutoff kw) (Stream.num_excerpts kw)
                     (Stream.max_excerpts kw)) with
        | Py.Ok _ => True
        | Py.Raise e => Stream.recovers e = true
        end)
    (Hpost : forall signals,
        exists out, Stream.postprocess kw signals = Py.Ok out) :
  snd (fst (fst (Stream.decode_audiosignal kw data state w))) = None.
Proof.
  unfold Stream.decode_audiosignal. rewrite Hoffset.
  now apply decode_loop_survives.
Qed.

Lemma toy_stream_postprocess_returns (signals : list AudioSignal) :
  exists out,
    @Stream.postprocess Toy.backend Toy.stream_kwargs signals = Py.Ok out.
Proof.
  unfold Stream.postprocess. simpl.
  destruct signals as [|s rest]; simpl; [eauto|].
  unfold signal_duration.
  assert (H : sample_rate (Toy.relabel (Toy.keep_first s) 3) = 3).
  { unfold Toy.relabel.
    destruct (sample_rate (Toy.keep_first s) =? 3) eqn:E;
      [now apply Z.eqb_eq in E | reflexivity]. }
  rewrite H. simpl. eauto.
Qed.

Lemma decode_audiosignal_survives_witness :
  snd (fst (fst (@Stream.decode_audiosignal Toy.backend Toy.stream_kwargs
                   [[("a.wav", "bad/corrupt.wav")]; [("note.txt", "hello")];
                    [("b.flac", "bad/big.wav")]; [("c.mp3", "good")]]
                   0 Toy.world)))
  = None.
Proof.
  apply (@decode_audiosignal_survives Toy.backend Toy.stream_kwargs).
  - reflexivity.
  - intros sample key value state Hin Hfind.
    destruct Hin as [<-|[<-|[<-|[<-|[]]]]]; vm_compute in Hfind;
      try discriminate; injection Hfind as <- <-; vm_compute; auto.
  - apply toy_stream_postprocess_returns.
Defined.

(** ** AudioDataset: the order of the tracks *)

Section OrderFacts.
Context `{B : Backend}.

Lemma sort_back_keys (item : Dict AudioLoader.Sample) :
  forall (keys : list string) (acc out : Dict AudioLoader.Sample),
    NoDup (map fst acc ++ keys) ->
    AudioDataset.sort_back item keys acc = Py.Ok out ->
    map fst out = map fst acc ++ keys.
Proof.
  induction keys as [|k keys IH]; intros acc out Hnd H; simpl in H.
  - injection H as <-. now rewrite app_nil_r.
  - destruct (dict_get item k) as [v|e]; [|discriminate]. simpl in H.
    assert (Hfresh : ~ In k (map fst acc)).
    { intros Hin. apply NoDup_remove_2 in Hnd. apply Hnd.
      apply in_or_app. now left. }
    rewrite (@dict_set_keys_fresh _ acc k v Hfresh) in H.
    apply IH in H.
    + rewrite H, map_app, <- app_assoc. reflexivity.
    + rewrite map_app, <- app_assoc. exact Hnd.
Qed.

End OrderFacts.

(** The tracks of a returned item are keyed by the loader names in the
    order the loaders were declared, whatever order they were called in,
    and the item carries the index it was asked for. *)
Theorem getitem_tracks_in_declared_order `{B : Backend}
    (self : AudioDataset.t) (idx : Z) (w w' : World)
    (item : Dict AudioLoader.Sample) (i : Z) (targs : option TransformArgs)
    (Hkeys : NoDup (map fst (AudioDataset.loaders self)))
    (Hget : AudioDataset.getitem self idx w
            = (Py.Ok (AudioDataset.Tracks item i targs), w')) :
  map fst item = map fst (AudioDataset.loaders self) /\ i = idx.
Proof.
  unfold AudioDataset.getitem in Hget.
  destruct (AudioDataset.getitem_body self idx (random_state idx) w)
    as [[r st] wf] eqn:Hbody.
  injection Hget as -> ->. unfold AudioDataset.getitem_body in Hbody.
  apply ebind_ok in Hbody. destruct Hbody as [keys [st1 [w1 [_ Hbody]]]].
  apply ebind_ok in Hbody. destruct Hbody as [k0 [st2 [w2 [_ Hbody]]]].
  apply ebind_ok in Hbody. destruct Hbody as [loader [st3 [w3 [_ Hbody]]]].
  apply ebind_ok in Hbody. destruct Hbody as [first [st4 [w4 [_ Hbody]]]].
  apply ebind_ok in Hbody. destruct Hbody as [item1 [st5 [w5 [_ Hbody]]]].
  apply ebind_ok in Hbody. destruct Hbody as [item2 [st6 [w6 [Hsort Hbody]]]].
  apply lift_ok in Hsort. destruct Hsort as [Hsort _].
  apply ebind_ok in Hbody. destruct Hbody as [ta [st7 [w7 [_ Hbody]]]].
  apply sort_back_keys in Hsort; [|exact Hkeys]. simpl in Hsort.
  destruct (map fst (AudioDataset.loaders self)) as [|ka [|kb ks]].
  - apply ret_ok in Hbody. destruct Hbody as [Hb _].
    injection Hb as -> -> _. auto.
  - apply ebind_ok in Hbody. destruct Hbody as [s [? [? [_ Hbody]]]].
    apply ret_ok in Hbody. destruct Hbody as [Hb _]. discriminate Hb.
  - apply ret_ok in Hbody. destruct Hbody as [Hb _].
    injection Hb as -> -> _. auto.
Qed.

Lemma getitem_tracks_in_declared_order_witness :
  exists item targs w',
    AudioDataset.getitem Toy.shuffled_dataset 1 Toy.world
    = (Py.Ok (AudioDataset.Tracks item 1 targs), w')
    /\ map fst item = ["vocals"; "drums"].
Proof.
  assert (H : exists item targs w',
             AudioDataset.getitem Toy.shuffled_dataset 1 Toy.world
             = (Py.Ok (AudioDataset.Tracks item 1 targs), w')).
  { eexists _, _, _. vm_compute. reflexivity. }
  destruct H as [item [targs [w' Hget]]].
  exists item, targs, w'. split; [exact Hget|].
  exact (proj1 (@getitem_tracks_in_declared_order Toy.backend
                  Toy.shuffled_dataset 1 Toy.world w' item 1 targs
                  ltac:(repeat constructor; simpl; intuition discriminate)
                  Hget)).
Defined.

(** ** Alignment keeps the catalogs' entries *)

Section AlignKeeps.
Variable matcher : string -> string -> bool.

Lemma real_entries_app (l1 l2 : list Item) :
  real_entries (l1 ++ l2) = real_entries l1 ++ real_entries l2.
Proof. unfold real_entries. apply filter_app. Qed.

Lemma align_one_real_entries (i : nat) (x : Item) (l : list Item) :
  real_entries (align_one matcher i x l) = real_entries l.
Proof.
  unfold align_one, list_insert. destruct (nth_error l i) as [y|].
  - destruct (matcher (path y) (path x)); [reflexivity|].
    rewrite real_entries_app. change (sentinel :: skipn i l)
      with ([sentinel] ++ skipn i l).
    rewrite real_entries_app. simpl.
    rewrite <- real_entries_app, firstn_skipn. reflexivity.
  - rewrite real_entries_app. simpl. apply app_nil_r.
Qed.

Lemma align_loop_keeps (fuel : nat) :
  forall (r i : nat) (lists out : list (list Item)),
    align_loop matcher fuel r i lists = Some out ->
    map real_entries out = map real_entries lists
    /\ Forall2 (fun l o => (List.length l <= List.length o)%nat) lists out.
Proof.
  induction fuel as [|fuel IH]; intros r i lists out H; simpl in H.
  - discriminate.
  - destruct (nth_error (nth r lists []) i) as [x|].
    + apply IH in H. destruct H as [Hreal Hlen]. split.
      * rewrite Hreal, map_map. apply map_ext. intros l.
        apply align_one_real_entries.
      * clear Hreal. revert out Hlen.
        induction lists as [|l lists IHl]; intros out Hlen; simpl in Hlen;
          inversion Hlen; subst; constructor.
        -- pose proof (align_one_length matcher i x l). lia.
        -- now apply IHl.
    + injection H as <-. split; [reflexivity|].
      induction lists; constructor; auto.
Qed.

End AlignKeeps.

(** Whenever [align_lists] returns, it has only added sentinels: each
    catalog of the result holds the non-sentinel entries of the catalog it
    came from, all of them and in the same order, and is no shorter. *)
Theorem align_lists_keeps_entries
    (matcher : string -> string -> bool) (fuel : nat)
    (lists out : list (list Item))
    (Hrun : align_lists matcher fuel lists = Some (Py.Ok out)) :
  map real_entries out = map real_entries lists
  /\ Forall2 (fun l o => (List.length l <= List.length o)%nat) lists out.
Proof.
  unfold align_lists in Hrun.
  destruct (argmax (map (@List.length Item) lists)) as [r|]; [|discriminate].
  destruct (align_loop matcher fuel r 0 lists) as [o|] eqn:E; [|discriminate].
  injection Hrun as <-. exact (align_loop_keeps matcher fuel r 0 lists E).
Qed.

Lemma align_lists_keeps_entries_witness :
  exists out,
    align_lists default_matcher 10
      [[mkItem "a/1.wav" []; mkItem "b/1.wav" []; mkItem "c/1.wav" []];
       [mkItem "z/2.wav" []; mkItem "c/2.wav" []]]
    = Some (Py.Ok out)
    /\ map real_entries out
       = [[mkItem "a/1.wav" []; mkItem "b/1.wav" []; mkItem "c/1.wav" []];
          [mkItem "z/2.wav" []; mkItem "c/2.wav" []]].
Proof.
  eexists. split; [vm_compute; reflexivity|].
  exact (proj1 (@align_lists_keeps_entries default_matcher 10
                  [[mkItem "a/1.wav" []; mkItem "b/1.wav" []; mkItem "c/1.wav" []];
                   [mkItem "z/2.wav" []; mkItem "c/2.wav" []]] _ eq_refl)).
Defined.

(** ** The audio key of a streamed sample *)

Lemma after_last_dot_none (s : string) :
  has_char "."%char s = false -> Stream.after_last_dot s = None.
Proof.
  induction s as [|c s IH]; simpl; intros H; [reflexivity|].
  apply orb_false_iff in H. destruct H as [Hc Hs].
  now rewrite (IH Hs), Hc.
Qed.

Lemma after_last_dot_suffix (pre suf : string) :
  has_char "."%char suf = false ->
  Stream.after_last_dot (pre ++ String "."%char suf)%string = Some suf.
Proof.
  intros H. induction pre as [|c pre IH]; simpl.
  - now rewrite (after_last_dot_none suf H).
  - now rewrite IH.
Qed.

(** The extension the streaming decode tests is a dot followed by what
    comes after the last dot of the key, and a dot followed by the whole
    key when the key holds no dot; so a key is an audio key according to
    its last extension alone. *)
Theorem extension_is_last_suffix `{B : Backend} (pre suf : string)
    (Hsuf : has_char "."%char suf = false) :
  Stream.extension (pre ++ String "."%char suf)%string = String "."%char suf
  /\ Stream.extension suf = String "."%char suf
  /\ Stream.is_audio (pre ++ String "."%char suf)%string = Stream.is_audio suf.
Proof.
  assert (H1 : Stream.extension (pre ++ String "."%char suf)%string
               = String "."%char suf).
  { unfold Stream.extension. now rewrite (after_last_dot_suffix pre suf Hsuf). }
  assert (H2 : Stream.extension suf = String "."%char suf).
  { unfold Stream.extension. now rewrite (after_last_dot_none suf Hsuf). }
  split; [exact H1|]. split; [exact H2|].
  unfold Stream.is_audio. now rewrite H1, H2.
Qed.

Lemma extension_is_last_suffix_witness :
  Stream.extension "mix.tar.flac" = ".flac"
  /\ @Stream.is_audio Toy.backend "mix.tar.flac" = true.
Proof.
  destruct (@extension_is_last_suffix Toy.backend "mix.tar" "flac" eq_refl)
    as [H1 [_ H3]].
  split; [exact H1|]. simpl append in H3. rewrite H3. reflexivity.
Defined.

(** ** The merge of the JSON metadata *)

Section JsonFacts.
Context `{B : Backend}.
Variable json_items : Blob -> Py.Res (Dict Value).

Lemma set_metadata_keeps (fields : Dict Value) :
  forall s : AudioSignal,
    audio_data (Json.set_metadata fields s) = audio_data s
    /\ num_channels (Json.set_metadata fields s) = num_channels s
    /\ sample_rate (Json.set_metadata fields s) = sample_rate s.
Proof.
  unfold Json.set_metadata.
  induction fields as [|kv fields IH]; intros s; simpl; [auto|].
  destruct (IH (mkSignal (audio_data s) (num_channels s) (sample_rate s)
                  (dict_set (metadata s) (fst kv) (snd kv)))) as [H1 [H2 H3]].
  simpl in *. auto.
Qed.

End JsonFacts.

(** [combine_json] returns [None] exactly for a record none of whose keys
    contains ["json"].  Otherwise it takes the first such key: it raises
    what reading that entry's fields raises, and else returns the record's
    signal with samples, channels and rate untouched, every field of the
    JSON object readable from the metadata, and the other metadata keys as
    they were. *)
Theorem combine_json_merges `{B : Backend}
    (json_items : Blob -> Py.Res (Dict Value)) (data : Stream.Out) :
  (Json.combine_json json_items data = Py.Ok None <->
   forall k v, In (k, v) (Stream.carried data) -> Py.str_in "json" k = false)
  /\ (forall signal,
        Json.combine_json json_items data = Py.Ok (Some signal) ->
        exists json_key value fields,
          Stream.find_audio (B := B) [] = None
          /\ In (json_key, value) (Stream.carried data)
          /\ Py.str_in "json" json_key = true
          /\ json_items value = Py.Ok fields
          /\ audio_data signal = audio_data (Stream.out_signal data)
          /\ num_channels signal = num_channels (Stream.out_signal data)
          /\ sample_rate signal = sample_rate (Stream.out_signal data)
          /\ (NoDup (map fst fields) ->
              forall k v, In (k, v) fields ->
                          dict_get (metadata signal) k = Py.Ok v)
          /\ (forall k, ~ In k (map fst fields) ->
                        dict_get (metadata signal) k
                        = dict_get (metadata (Stream.out_signal data)) k)).
Proof.
  unfold Json.combine_json. split.
  - destruct (find _ (Stream.carried data)) as [[jk value]|] eqn:Ef.
    + split.
      * intros H. destruct (json_items value); discriminate.
      * intros H. apply find_some in Ef. destruct Ef as [Hin Hk].
        simpl in Hk. rewrite (H jk value Hin) in Hk. discriminate.
    + split; [|reflexivity]. intros _ k v Hin.
      apply (find_none _ _ Ef (k, v) Hin).
  - intros signal H.
    destruct (find _ (Stream.carried data)) as [[jk value]|] eqn:Ef;
      [|discriminate].
    apply find_some in Ef. destruct Ef as [Hin Hk]. simpl in Hk.
    destruct (json_items value) as [fields|e] eqn:Ej; [|discriminate].
    simpl in H. injection H as <-.
    exists jk, value, fields.
    destruct (set_metadata_keeps fields (Stream.out_signal data))
      as [Ha [Hc Hr]].
    repeat split; try assumption.
    + intros Hnd k v Hkv. unfold Json.set_metadata.
      exact (proj2 (set_all_lookup fields _ k) v Hnd Hkv).
    + intros k Hk'. unfold Json.set_metadata.
      exact (proj1 (set_all_lookup fields _ k) Hk').
Qed.
